(** * logrole: expiring cache, permission-filtering client and alert pager

  A shallow embedding of three pieces of the logrole sources:

  - package [cache] ([Cache.Set], [Cache.Get] over a groupcache LRU),
  - package [views] ([Client.GetMediaURLs]),
  - package [server] ([getAlertFrequency], [alertListServer.ServeHTTP]).

  Go values are modelled as plain data: instants and durations are
  integers counting nanoseconds, a [(T, error)] result is a pair or a
  sum, a pointer receiver is a record that the operation returns
  updated.  Logging calls have no influence on results and are left
  out. *)

From Stdlib Require Import ZArith List String Ascii Bool Lia DecimalString.
From Stdlib Require Import Permutation.
Import ListNotations.

Local Open Scope Z_scope.

(** ** Package [time] (Go standard library)

  An instant is the number of nanoseconds since a fixed epoch.  A
  [Duration] is a Go [int64] nanosecond count.  [Time.Sub] saturates at
  the largest and smallest [Duration]; [Time.Add] is exact, the range
  of a Go [Time] being far larger than that of a [Duration]. *)
Module time.

Definition Time := Z.
Definition Duration := Z.

Definition Nanosecond : Duration := 1.
Definition Microsecond : Duration := 1000 * Nanosecond.
Definition Millisecond : Duration := 1000 * Microsecond.
Definition Second : Duration := 1000 * Millisecond.
Definition Minute : Duration := 60 * Second.
Definition Hour : Duration := 60 * Minute.

Definition maxDuration : Duration := 2 ^ 63 - 1.
Definition minDuration : Duration := - 2 ^ 63.

(** [t.Add(d)] *)
Definition Add (t : Time) (d : Duration) : Time := t + d.

(** [t.Sub(u)]: the difference, clamped to the range of [Duration]. *)
Definition Sub (t u : Time) : Duration :=
  let d := t - u in
  if d <? minDuration then minDuration
  else if maxDuration <? d then maxDuration
  else d.

(** [time.Since(t)] is [time.Now().Sub(t)]; [now] is the clock reading. *)
Definition Since (now t : Time) : Duration := Sub now t.

End time.

(** ** Package [lru] (github.com/golang/groupcache/lru)

  The library keeps a doubly linked list of entries, most recently
  used first, and a map from keys to list elements.  The model is the
  list itself: a key occurs in it at most once, as [Add] only pushes a
  key that the map does not hold. *)
Module lru.
Section LRU.

Variable V : Type.

Record Cache := mkCache {
  MaxEntries : Z;                 (* zero means no limit *)
  ll : list (string * V)          (* front of the list first *)
}.

Definition New (maxEntries : Z) : Cache :=
  {| MaxEntries := maxEntries; ll := [] |}.

Fixpoint lookup (key : string) (l : list (string * V)) : option V :=
  match l with
  | [] => None
  | (k, v) :: rest => if String.eqb k key then Some v else lookup key rest
  end.

Definition removeElement (key : string) (l : list (string * V)) :=
  filter (fun e => negb (String.eqb (fst e) key)) l.

Definition Len (c : Cache) : Z := Z.of_nat (List.length (ll c)).

(** [RemoveOldest] drops the element at the back of the list. *)
Definition RemoveOldest (c : Cache) : Cache :=
  {| MaxEntries := MaxEntries c; ll := removelast (ll c) |}.

(** [Add]: an existing key is moved to the front and takes the new
    value; a new key is pushed at the front, and the oldest entry is
    removed when the list has grown beyond a non-zero [MaxEntries]. *)
Definition Add (key : string) (value : V) (c : Cache) : Cache :=
  match lookup key (ll c) with
  | Some _ =>
      {| MaxEntries := MaxEntries c;
         ll := (key, value) :: removeElement key (ll c) |}
  | None =>
      let c' := {| MaxEntries := MaxEntries c;
                   ll := (key, value) :: ll c |} in
      if negb (MaxEntries c' =? 0) && (MaxEntries c' <? Len c')
      then RemoveOldest c' else c'
  end.

(** [Get]: a hit moves the entry to the front. *)
Definition Get (key : string) (c : Cache) : option V * Cache :=
  match lookup key (ll c) with
  | Some v =>
      (Some v, {| MaxEntries := MaxEntries c;
                  ll := (key, v) :: removeElement key (ll c) |})
  | None => (None, c)
  end.

Definition Remove (key : string) (c : Cache) : Cache :=
  {| MaxEntries := MaxEntries c; ll := removeElement key (ll c) |}.

End LRU.

Arguments MaxEntries {V}.
Arguments ll {V}.
Arguments New {V}.
Arguments removeElement {V}.
Arguments RemoveOldest {V}.
Arguments lookup {V}.
Arguments Add {V}.
Arguments Get {V}.
Arguments Remove {V}.
Arguments Len {V}.

End lru.

(** ** Go [error] values

    The sources compare an error with the variable
    [twilio.NoMoreResults] by identity and switch on the dynamic type
    [*rest.Error]; every other error is known by its text only. *)
Inductive error :=
| NoMoreResults                                (* twilio.NoMoreResults *)
| restError (StatusCode : Z) (Title : string)  (* &rest.Error{...} *)
| errorString (text : string).                 (* errors.New(text) *)

(** [err.Error()] *)
Definition Error (err : error) : string :=
  match err with
  | NoMoreResults => "twilio: No more results"
  | restError _ title => title
  | errorString text => text
  end.

(** A call either returns or panics. *)
Inductive outcome (A : Type) :=
| Returned (a : A)
| Panicked.

Arguments Returned {A}.
Arguments Panicked {A}.

(** ** Package [cache] *)
Module cache.

Definition bytes := list Byte.byte.

(** [encoding/gob] behind [compress/gzip], for values of one Go type
    [T]: [gob_gzip v] is what [ec.Encode] followed by [writer.Close]
    leaves in the buffer, or [None] when either reports an error;
    [gzip_NewReader] tells whether the gzip header is accepted;
    [gob_Decode] is [dec.Decode] reading through that reader. *)
Class Codec (T : Type) := {
  gob_gzip : T -> option bytes;
  gzip_NewReader : bytes -> bool;
  gob_Decode : bytes -> T + error
}.

Record expiringBits := {
  Set_ : time.Time;       (* field [Set] *)
  Expires : time.Time;
  Bits : bytes
}.

(** What the LRU holds under [interface{}]: a [*expiringBits], or a
    value of some other dynamic type. *)
Inductive cacheVal :=
| expiringBitsPtr (e : expiringBits)
| otherVal.

Definition Cache := lru.Cache cacheVal.

Definition expired : error := errorString "expired".
Definition errNotFound : error := errorString "Key not found in cache".

Definition NewCache (size : Z) : Cache := lru.New size.

(** [enc] panics when encoding fails. *)
Definition enc {T} `{Codec T} (data : T) : outcome bytes :=
  match gob_gzip data with
  | Some buf => Returned buf
  | None => Panicked
  end.

(** The results of [Cache.Get]: the value decoded into [val], if any, the
    returned time (the zero [time.Time] on every error path) and the
    returned error. *)
Record GetResult (T : Type) := {
  val : option T;
  stored : time.Time;
  err : option error
}.

Arguments val {T}.
Arguments stored {T}.
Arguments err {T}.

Definition failed {T} (e : error) : GetResult T :=
  {| val := None; stored := 0; err := Some e |}.

(** [c.Get(key, val)]; [now] is the clock reading of [time.Since]. *)
Definition Cache_Get {T} `{Codec T} (c : Cache) (key : string) (now : time.Time)
  : outcome (GetResult T * Cache) :=
  match lru.Get key c with
  | (None, c1) => Returned (failed errNotFound, c1)
  | (Some cv, c1) =>
      match cv with
      | otherVal =>
          Returned (failed (errorString "could not cast value to expiringBits"), c1)
      | expiringBitsPtr e =>
          if 0 <? time.Since now (Expires e) then
            Returned (failed expired, lru.Remove key c1)
          else if gzip_NewReader (Bits e) then
            match gob_Decode (Bits e) with
            | inr derr => Returned (failed derr, c1)
            | inl v =>
                Returned ({| val := Some v; stored := Set_ e; err := None |}, c1)
            end
          else Panicked
      end
  end.

(** [c.Set(key, val, timeout)]; [now] is the reading of
    [time.Now().UTC()]. *)
Definition Cache_Set {T} `{Codec T} (c : Cache) (key : string) (v : T)
  (timeout : time.Duration) (now : time.Time) : outcome Cache :=
  match enc v with
  | Panicked => Panicked
  | Returned buf =>
      let e := {| Set_ := now;
                  Expires := time.Add now timeout;
                  Bits := buf |} in
      Returned (lru.Add key (expiringBitsPtr e) c)
  end.

End cache.

(** ** Package [net/url] (Go standard library) *)
Module url.

(** [url.Values], a map from a key to its list of values. *)
Definition Values := list (string * list string).

(** [v.Get(key)]: the first value of the key, or the empty string. *)
Fixpoint Get (v : Values) (key : string) : string :=
  match v with
  | [] => ""
  | (k, vs) :: rest =>
      if String.eqb k key then hd ""%string vs else Get rest key
  end.

(** [v.Set(key, value)]: the key now has this value only. *)
Definition Values_Set (v : Values) (key value : string) : Values :=
  (key, [value]) :: filter (fun e => negb (String.eqb (fst e) key)) v.

Record URL := {
  Scheme : string;
  Host : string;
  Path : string;
  RawQuery : string;
  Fragment : string
}.

(** [url.Parse] and the [String] method of a URL, taken as given. *)
Class Lib := {
  Parse : string -> URL + error;
  URL_String : URL -> string
}.

(** [v[key]] with the comma-ok form: the values under the key, if the
    map holds the key. *)
Fixpoint index (v : Values) (key : string) : option (list string) :=
  match v with
  | [] => None
  | (k, vs) :: rest => if String.eqb k key then Some vs else index rest key
  end.

(** [v.Encode()], taken as given. *)
Class Encoding := {
  Encode : Values -> string
}.

End url.

(** ** Package [services]

    [Opaque] seals a string under a 32-byte key with a fresh 24-byte
    nonce read from the system's random source, and returns URL-safe
    text.  Its code is not among the sources; it is a parameter, with the
    nonce it draws made explicit. *)
Module services.

Definition Key := list Byte.byte.
Definition Nonce := list Byte.byte.

Class Sealer := {
  Opaque : string -> Key -> Nonce -> string
}.

End services.

(** ** Package [config] *)
Module config.

(** Modelled from the spec: the declaration of [config.User] is not
    among the sources.  A user inherits a named capability set from its
    group; a capability is read through a method of the same name. *)
Record User := {
  CanViewMedia : bool;
  CanViewAlerts : bool
}.

(** The package variable [config.PermissionDenied], declared outside the
    sources at hand. *)
Class Errors := {
  PermissionDenied : error
}.

End config.

(** ** Package [types] (github.com/kevinburke/go-types) *)
Module types.

Record NullTime := {
  Time : time.Time;
  Valid : bool
}.

Module NullString.
Record t := {
  String : string;
  Valid : bool
}.
End NullString.

End types.

(** ** Package [views] *)
Module views.

(** The part of [*twilio.Client] that [GetMediaURLs] uses, and the
    client's secret key. *)
Record Client := {
  Messages_GetMediaURLs : string -> url.Values -> list url.URL + error;
  secretKey : services.Key
}.

Definition mediaUrlsFilters : url.Values := [("PageSize"%string, ["100"%string])].

(** A request that went out to the upstream API. *)
Inductive Request :=
| MediaURLsRequest (sid : string) (data : url.Values).

Section GetMediaURLs.

Context `{config.Errors} `{services.Sealer} `{url.Lib}.

(** The loop over [urls], from index [i] on; [rand i] is the nonce that
    the [i]-th call of [services.Opaque] draws. *)
Fixpoint opaqueLoop (vc : Client) (rand : nat -> services.Nonce)
  (urls : list url.URL) (i : nat) : list url.URL + error :=
  match urls with
  | [] => inl []
  | u :: rest =>
      let enc := services.Opaque (url.URL_String u) (secretKey vc) (rand i) in
      match url.Parse ("/images/" ++ enc) with
      | inr err => inr err
      | inl opaqueURL =>
          match opaqueLoop vc rand rest (S i) with
          | inr err => inr err
          | inl opaqueImages => inl (opaqueURL :: opaqueImages)
          end
      end
  end.

(** [vc.GetMediaURLs(u, sid)]: the result, and the requests sent
    upstream on the way. *)
Definition GetMediaURLs (vc : Client) (rand : nat -> services.Nonce)
  (u : config.User) (sid : string)
  : (list url.URL + error) * list Request :=
  if Bool.eqb (config.CanViewMedia u) false then
    (inr config.PermissionDenied, [])
  else
    match Messages_GetMediaURLs vc sid mediaUrlsFilters with
    | inr err => (inr err, [MediaURLsRequest sid mediaUrlsFilters])
    | inl urls =>
        (opaqueLoop vc rand urls 0, [MediaURLsRequest sid mediaUrlsFilters])
    end.

End GetMediaURLs.

(** Modelled from the spec: the declarations of [views.Alert] and
    [views.AlertPage] are not among the sources.  An alert is known here
    by what its [DateCreated] method returns; a page is an ordered
    sequence of records with at most one forward and at most one
    backward continuation cursor. *)
Record Alert := {
  DateCreated : types.NullTime * option error
}.

Record AlertPage := {
  Alerts : list Alert;
  NextPageURI : types.NullString.t;
  PreviousPageURI : types.NullString.t
}.

(** [new(views.AlertPage)] *)
Definition newAlertPage : AlertPage :=
  {| Alerts := [];
     NextPageURI := {| types.NullString.String := ""; types.NullString.Valid := false |};
     PreviousPageURI := {| types.NullString.String := ""; types.NullString.Valid := false |} |}.

End views.

(** ** Package [twilio] (github.com/kevinburke/twilio-go) *)
Module twilio.

Definition MonitorBaseURL : string := "https://monitor.twilio.com".

End twilio.

(** ** Package [strings] and [strconv] (Go standard library) *)
Module strings.

Definition HasPrefix (s prefix : string) : bool := String.prefix prefix s.

(** [strings.Replace(s, old, new, 1)]: the first occurrence only. *)
Fixpoint Replace1 (s old new : string) : string :=
  if String.prefix old s then
    new ++ substring (String.length old) (String.length s - String.length old) s
  else
    match s with
    | EmptyString => EmptyString
    | String c rest => String c (Replace1 rest old new)
    end.

(** [strconv.FormatUint(n, 10)] *)
Definition FormatUint10 (n : N) : string := NilZero.string_of_uint (N.to_uint n).

(** [strings.TrimPrefix(s, prefix)] *)
Definition TrimPrefix (s prefix : string) : string :=
  if String.prefix prefix s then
    substring (String.length prefix) (String.length s - String.length prefix) s
  else s.

End strings.

(** ** Package [server]: the alert list *)
Module server.

(** Go's [uint] and [int] on a 64-bit platform: [count++] wraps, and
    [int(count)] reads the same bits as a signed number. *)
Definition uintIncr (count : Z) : Z := (count + 1) mod 2 ^ 64.

Definition intOfUint (count : Z) : Z :=
  if count <? 2 ^ 63 then count else count - 2 ^ 64.

Record alertFrequency := {
  Since : time.Duration;
  Name : string;
  Count : Z;
  HaveMore : bool
}.

(** The [for ... range alerts] loop of [getAlertFrequency]. *)
Fixpoint countAlerts (now : time.Time) (since : time.Duration)
  (alerts : list views.Alert) (count : Z) : Z :=
  match alerts with
  | [] => count
  | alert :: rest =>
      let '(createdAt, err) := views.DateCreated alert in
      match err with
      | Some _ => countAlerts now since rest count
      | None =>
          if types.Valid createdAt
             && (time.Sub now (types.Time createdAt) <? since)
          then countAlerts now since rest (uintIncr count)
          else countAlerts now since rest count
      end
  end.

(** [getAlertFrequency(alerts, name, since)]; [now] is the reading of
    [time.Now()]. *)
Definition getAlertFrequency (alerts : list views.Alert) (name : string)
  (since : time.Duration) (now : time.Time) : alertFrequency :=
  let count := countAlerts now since alerts 0 in
  {| Name := name;
     Count := count;
     Since := since;
     HaveMore := (0 <? count)
                 && (Z.of_nat (List.length alerts) <=? intOfUint count) |}.

Definition Location := string.

Record alertListServer := {
  PageSize : N;
  MaxResourceAge : time.Duration;
  secretKey : services.Key
}.

Record alertListData := {
  Page : views.AlertPage;
  EncryptedNextPage : string;
  EncryptedPreviousPage : string;
  Loc : Location;
  Query : url.Values;
  Err : string;
  Freq : list alertFrequency
}.

(** [baseData] is declared outside the sources at hand; these are the
    fields that [ServeHTTP] sets, the location finder apart. *)
Record baseData := {
  Duration : time.Duration;
  Data : alertListData
}.

(** An [*http.Request], known by what [r.URL.Query()] returns. *)
Record Request := {
  URL_Query : url.Values
}.

(** The context a client call runs under: the request's, cut off after
    a timeout by [getContext], or [context.Background()]. *)
Inductive Context :=
| requestContext (timeout : time.Duration)
| backgroundContext.

(** What a request does to the outside, in the order it happens:
    writes to the [http.ResponseWriter], directly or through package
    [rest], and calls of the [views.Client].  A call made by the handler
    carries its result; the one made in the goroutine does not return to
    the handler. *)
Inductive Event :=
| Header_Set (key value : string)
| WriteHeader (code : Z)
| render_base (data : baseData)
| rest_ServerError (err : error)
| rest_Forbidden (err : error)
| rest_NotFound
| getTimes_wroteError
| panic (msg : string)
| GetNextAlertPageInRange (ctx : Context) (u : config.User)
    (startTime endTime : time.Time) (next : string)
    (result : views.AlertPage + error)
| GetAlertPageInRange (ctx : Context) (u : config.User)
    (startTime endTime : time.Time) (vals : url.Values)
    (result : views.AlertPage + error)
| go_GetNextAlertPageInRange (u : config.User)
    (startTime endTime : time.Time) (next : string).

(** The helpers and collaborators of [ServeHTTP] whose code is not among
    the sources, as parameters: what they return on given arguments.
    [clock n] is the [n]-th reading of [time.Now()] during the request.
    [setPageFilters] and [setNextPageValsOnQuery] return the map they
    have updated in place.  A client call returns a page or an error,
    never both and never neither. *)
Record Env := {
  GetUser : Request -> option config.User;
  GetLocationReq : Request -> Location;
  getTimes : Request -> string -> string -> Location -> url.Values
             -> time.Time * time.Time * bool;
  getNext : url.Values -> services.Key -> string * option error;
  setNextPageValsOnQuery : string -> url.Values -> url.Values;
  setPageFilters : url.Values -> url.Values -> url.Values * option error;
  getEncryptedPage : types.NullString.t -> services.Key -> string;
  Client_GetNextAlertPageInRange :
    Context -> config.User -> time.Time -> time.Time -> string
    -> views.AlertPage + error;
  Client_GetAlertPageInRange :
    Context -> config.User -> time.Time -> time.Time -> url.Values
    -> views.AlertPage + error;
  render : baseData -> option error;
  clock : nat -> time.Time
}.

(** The state a request threads through: how many clock readings it has
    taken, and the events so far, oldest first. *)
Record World := {
  ticks : nat;
  trace : list Event
}.

Definition M (A : Type) : Type := World -> A * World.

Definition ret {A} (a : A) : M A := fun w => (a, w).

Definition bind {A B} (m : M A) (k : A -> M B) : M B :=
  fun w => let '(a, w') := m w in k a w'.

Notation "x <- m ;; k" := (bind m (fun x => k))
  (at level 61, m at next level, right associativity).
Notation "m ;;; k" := (bind m (fun _ => k))
  (at level 61, right associativity).

Definition emit (e : Event) : M unit :=
  fun w => (tt, {| ticks := ticks w; trace := trace w ++ [e] |}).

(** [time.Now()] *)
Definition Now (env : Env) : M time.Time :=
  fun w => (clock env (ticks w), {| ticks := S (ticks w); trace := trace w |}).

Definition StatusBadRequest : Z := 400.

(** [render(w, r, s.tpl, "base", data)], and [rest.ServerError] when it
    fails. *)
Definition renderBase (env : Env) (data : baseData) : M unit :=
  emit (render_base data) ;;;
  match render env data with
  | Some err => emit (rest_ServerError err)
  | None => ret tt
  end.

(** [s.renderError(w, r, code, query, err)] *)
Definition renderError (env : Env) (s : alertListServer) (r : Request)
  (code : Z) (query : url.Values) (err : option error) : M unit :=
  match err with
  | None => emit (panic "called renderError with a nil error")
  | Some e =>
      let str := strings.Replace1 (Error e) "twilio: " "" in
      let data :=
        {| Duration := 0;
           Data := {| Err := str;
                      Loc := GetLocationReq env r;
                      Query := query;
                      Page := views.newAlertPage;
                      EncryptedNextPage := "";
                      EncryptedPreviousPage := "";
                      Freq := [] |} |} in
      emit (Header_Set "Content-Type" "text/html; charset=utf-8") ;;;
      emit (WriteHeader code) ;;;
      renderBase env data
  end.

Definition setFreq (ad : alertListData) (freq : list alertFrequency)
  : alertListData :=
  {| Page := Page ad;
     EncryptedNextPage := EncryptedNextPage ad;
     EncryptedPreviousPage := EncryptedPreviousPage ad;
     Loc := Loc ad;
     Query := Query ad;
     Err := Err ad;
     Freq := freq |}.

(** [ServeHTTP] from the point where the client has answered:
    [result] is [(page, err)] after the call. *)
Definition serveResult (env : Env) (s : alertListServer) (r : Request)
  (u : config.User) (startTime endTime start : time.Time)
  (next : string) (query : url.Values)
  (result : views.AlertPage + error) : M unit :=
  let result :=
    match result with
    | inr NoMoreResults => inl views.newAlertPage
    | _ => result
    end in
  match result with
  | inr err =>
      match err with
      | restError StatusCode _ =>
          if StatusCode =? 400 then
            renderError env s r StatusBadRequest query (Some err)
          else if StatusCode =? 404 then emit rest_NotFound
          else emit (rest_ServerError err)
      | _ => emit (rest_ServerError err)
      end
  | inl page =>
      (* Fetch the next page into the cache *)
      (let n := views.NextPageURI page in
       if types.NullString.Valid n then
         emit (go_GetNextAlertPageInRange u startTime endTime
                 (types.NullString.String n))
       else ret tt) ;;;
      finished <- Now env ;;
      let ad :=
        {| Page := page;
           Query := query;
           Loc := GetLocationReq env r;
           EncryptedNextPage :=
             getEncryptedPage env (views.NextPageURI page) (secretKey s);
           EncryptedPreviousPage :=
             getEncryptedPage env (views.PreviousPageURI page) (secretKey s);
           Err := "";
           Freq := [] |} in
      ad <- (if String.eqb next "" then
               let alerts := views.Alerts page in
               now1 <- Now env ;;
               now2 <- Now env ;;
               now3 <- Now env ;;
               now4 <- Now env ;;
               ret (setFreq ad
                      [ getAlertFrequency alerts "5 minutes" (5 * time.Minute) now1;
                        getAlertFrequency alerts "hour" time.Hour now2;
                        getAlertFrequency alerts "day" (24 * time.Hour) now3;
                        getAlertFrequency alerts "3 days" (24 * time.Hour) now4 ])
             else ret ad) ;;
      emit (Header_Set "Content-Type" "text/html; charset=utf-8") ;;;
      emit (WriteHeader 200) ;;;
      renderBase env {| Duration := time.Since finished start; Data := ad |}
  end.

(** [s.ServeHTTP(w, r)] *)
Definition ServeHTTP (env : Env) (s : alertListServer) (r : Request)
  : M unit :=
  match GetUser env r with
  | None => emit (rest_ServerError (errorString "No user available"))
  | Some u =>
      if negb (config.CanViewAlerts u) then
        emit (rest_Forbidden (restError 0 "Access denied"))
      else
        let query := URL_Query r in
        let loc := GetLocationReq env r in
        let '(startTime, endTime, wroteError) :=
          getTimes env r "alert-start" "alert-end" loc query in
        if wroteError then emit getTimes_wroteError
        else
          let ctx := requestContext (3 * time.Second) in
          let '(next, nextErr) := getNext env query (secretKey s) in
          match nextErr with
          | Some nerr =>
              let err :=
                errorString ("Could not decrypt `next` query parameter: "
                             ++ Error nerr) in
              renderError env s r StatusBadRequest query (Some err)
          | None =>
              start <- Now env ;;
              if negb (String.eqb next "") then
                if negb (strings.HasPrefix next twilio.MonitorBaseURL) then
                  renderError env s r StatusBadRequest query
                    (Some (errorString "Invalid next page uri"))
                else
                  let result :=
                    Client_GetNextAlertPageInRange env ctx u startTime endTime next in
                  emit (GetNextAlertPageInRange ctx u startTime endTime next result) ;;;
                  let query := setNextPageValsOnQuery env next query in
                  serveResult env s r u startTime endTime start next query result
              else
                let vals := url.Values_Set [] "PageSize"
                              (strings.FormatUint10 (PageSize s)) in
                let '(vals, filterErr) := setPageFilters env query vals in
                match filterErr with
                | Some ferr =>
                    renderError env s r StatusBadRequest query (Some ferr)
                | None =>
                    let result :=
                      Client_GetAlertPageInRange env ctx u startTime endTime vals in
                    emit (GetAlertPageInRange ctx u startTime endTime vals result) ;;;
                    serveResult env s r u startTime endTime start next query result
                end
          end
  end.

(** The world a request starts in. *)
Definition start : World := {| ticks := 0; trace := [] |}.

(** The events of serving [r]. *)
Definition served (env : Env) (s : alertListServer) (r : Request)
  : list Event :=
  trace (snd (ServeHTTP env s r start)).

(** Whether an event is a call of the upstream client. *)
Definition isClientCall (e : Event) : bool :=
  match e with
  | GetNextAlertPageInRange _ _ _ _ _ _
  | GetAlertPageInRange _ _ _ _ _ _
  | go_GetNextAlertPageInRange _ _ _ _ => true
  | _ => false
  end.

Definition clientCalls (tr : list Event) : list Event :=
  filter isClientCall tr.

(** The status line the client receives: [net/http] sends the status of
    the first [WriteHeader], or 200 at the first write of the body; the
    helpers of package [rest] write 500, 403 and 404.  What [getTimes]
    writes is not known here. *)
Fixpoint statusCode (tr : list Event) : option Z :=
  match tr with
  | [] => None
  | e :: rest =>
      match e with
      | WriteHeader code => Some code
      | render_base _ => Some 200
      | rest_ServerError _ => Some 500
      | rest_Forbidden _ => Some 403
      | rest_NotFound => Some 404
      | getTimes_wroteError => None
      | panic _ => None
      | _ => statusCode rest
      end
  end.

(** The data the page template was rendered with, if it was. *)
Fixpoint rendered (tr : list Event) : option baseData :=
  match tr with
  | [] => None
  | render_base data :: _ => Some data
  | _ :: rest => rendered rest
  end.

(** [xs[0]] on a slice of strings: out of range on an empty one. *)
Definition first (xs : list string) : outcome string :=
  match xs with
  | [] => Panicked
  | x :: _ => Returned x
  end.

Definition andThen {A B} (m : outcome A) (k : A -> outcome B) : outcome B :=
  match m with
  | Returned a => k a
  | Panicked => Panicked
  end.

(** The map [data] that [NextQuery] has built when it returns. *)
Definition NextQuery_data (c : alertListData) : outcome url.Values :=
  let data : url.Values := [] in
  let data :=
    if negb (String.eqb (EncryptedNextPage c) "")
    then url.Values_Set data "next" (EncryptedNextPage c) else data in
  andThen
    (match url.index (Query c) "alert-start" with
     | Some start =>
         andThen (first start)
           (fun start0 => Returned (url.Values_Set data "alert-start" start0))
     | None => Returned data
     end)
    (fun data =>
       match url.index (Query c) "alert-end" with
       | Some end_ =>
           andThen (first end_)
             (fun end0 => Returned (url.Values_Set data "alert-end" end0))
       | None => Returned data
       end).

(** [c.NextQuery()] *)
Definition NextQuery `{url.Encoding} (c : alertListData) : outcome string :=
  andThen (NextQuery_data c) (fun data => Returned (url.Encode data)).

(** The map [data] that [PreviousQuery] has built when it returns. *)
Definition PreviousQuery_data (c : alertListData) : outcome url.Values :=
  let data : url.Values := [] in
  let data :=
    if negb (String.eqb (EncryptedPreviousPage c) "")
    then url.Values_Set data "next" (EncryptedPreviousPage c) else data in
  andThen
    (match url.index (Query c) "alert-start" with
     | Some start =>
         andThen (first start)
           (fun start0 => Returned (url.Values_Set data "alert-start" start0))
     | None => Returned data
     end)
    (fun data =>
       match url.index (Query c) "alert-end" with
       | Some end_ =>
           andThen (first end_)
             (fun end0 => Returned (url.Values_Set data "alert-end" end0))
       | None => Returned data
       end).

(** [c.PreviousQuery()] *)
Definition PreviousQuery `{url.Encoding} (c : alertListData)
  : outcome string :=
  andThen (PreviousQuery_data c) (fun data => Returned (url.Encode data)).

(** The helpers [minLoc] and [maxLoc] and the constant
    [config.DefaultMaxResourceAge], declared outside the sources at
    hand. *)
Class SearchDefaults := {
  minLoc : time.Duration -> Location -> string;
  maxLoc : Location -> string;
  DefaultMaxResourceAge : time.Duration
}.

(** [s.StartSearchVal(query, loc)] *)
Definition StartSearchVal `{SearchDefaults} (s : alertListServer)
  (query : url.Values) (loc : Location) : outcome string :=
  match url.index query "alert-start" with
  | Some start => first start
  | None =>
      if MaxResourceAge s =? DefaultMaxResourceAge then
        (* one week ago, arbitrary *)
        Returned (minLoc (7 * 24 * time.Hour) loc)
      else Returned (minLoc (MaxResourceAge s) loc)
  end.

(** [s.EndSearchVal(query, loc)] *)
Definition EndSearchVal `{SearchDefaults} (s : alertListServer)
  (query : url.Values) (loc : Location) : outcome string :=
  match url.index query "alert-end" with
  | Some end_ => first end_
  | None => Returned (maxLoc loc)
  end.

End server.

(** ** Package [server]: the handlers of serve.go *)
Module serve.

(** An [*http.Request], by the fields the handlers read.  [Header] maps
    a header name in its canonical form to its values; [Header.Get] is
    the first value or the empty string, as [url.Get] is. *)
Record Request := {
  URL : url.URL;
  Host : string;
  Header : url.Values
}.

(** What a handler does to its [http.ResponseWriter], in order. *)
Inductive Event :=
| Header_Set (key value : string)
| http_Redirect (target : string) (code : Z)
| messageTemplate_Execute
| rest_ServerError (err : error)
| rest_NotFound
| http_ServeContent (name : string) (modtime : time.Time)
    (content : list Byte.byte).

Definition Handler := Request -> list Event.

Definition StatusMovedPermanently : Z := 301.

(** [UpgradeInsecureHandler(h, allowUnencryptedTraffic)] *)
Definition UpgradeInsecureHandler `{url.Lib} (h : Handler)
  (allowUnencryptedTraffic : bool) : Handler :=
  fun r =>
    let rest :=
      (* This header doesn't mean anything when served over HTTP *)
      Header_Set "Strict-Transport-Security"
        "max-age=31536000; includeSubDomains; preload"
      :: h r in
    if Bool.eqb allowUnencryptedTraffic false then
      if String.eqb (url.Get (Header r) "X-Forwarded-Proto") "http" then
        let u := {| url.Scheme := "https";
                    url.Host := Host r;
                    url.Path := url.Path (URL r);
                    url.RawQuery := url.RawQuery (URL r);
                    url.Fragment := url.Fragment (URL r) |} in
        [http_Redirect (url.URL_String u) StatusMovedPermanently]
      else rest
    else rest.

(** The generated package [assets] and the template parsed at start, as
    parameters: [Asset name] is the file of that name or an error;
    [Execute] is the error, if any, of executing the message template. *)
Class Assets := {
  Asset : string -> list Byte.byte + error;
  Execute : option error
}.

Record static := {
  modTime : time.Time
}.

(** [(s *server) ServeHTTP] *)
Definition server_ServeHTTP `{Assets} : Handler :=
  fun r =>
    Header_Set "Content-Type" "text/html; charset=utf-8"
    :: messageTemplate_Execute
    :: match Execute with
       | Some err => [rest_ServerError err]
       | None => []
       end.

(** [(s *static) ServeHTTP] *)
Definition static_ServeHTTP `{Assets} (s : static) : Handler :=
  fun r =>
    match Asset (strings.TrimPrefix (url.Path (URL r)) "/") with
    | inr err =>
        [Header_Set "Content-Type" "application/json; charset=utf-8";
         rest_NotFound]
    | inl bits => [http_ServeContent (url.Path (URL r)) (modTime s) bits]
    end.

(** Package [handlers] (github.com/kevinburke/handlers), as parameters:
    the handler that a [handlers.Regexp] with the given routes is, and
    [handlers.BasicAuth]. *)
Record Route := {
  pattern : string;
  methods : list string;
  handler : Handler
}.

Class Handlers := {
  Regexp : list Route -> Handler;
  BasicAuth : Handler -> string -> list (string * string) -> Handler
}.

(** [NewServer(allowUnencryptedTraffic, users)]; [staticServer] is the
    package variable set at start. *)
Definition NewServer `{url.Lib} `{Assets} `{Handlers} (staticServer : Handler)
  (allowUnencryptedTraffic : bool) (users : list (string * string))
  : Handler :=
  let s := server_ServeHTTP in
  let r := Regexp [ {| pattern := "^/messages$"; methods := ["GET"%string];
                       handler := s |};
                    {| pattern := "^/static"; methods := ["GET"%string];
                       handler := staticServer |} ] in
  let h := if (0 <? List.length users)%nat
           then BasicAuth r "logrole" users else r in
  UpgradeInsecureHandler h allowUnencryptedTraffic.

End serve.

(** * Specification vocabulary *)

Module spec.

(** A value that gob and gzip carry faithfully: encoding succeeds and
    decoding the bytes gives the value back. *)
Definition serializable {T} `{cache.Codec T} (v : T) : Prop :=
  exists buf,
    cache.gob_gzip v = Some buf
    /\ cache.gzip_NewReader buf = true
    /\ cache.gob_Decode buf = inl v.



(** A codec for strings that keeps the bytes as they are, to run the
    cache on concrete values. *)
Definition plainCodec : cache.Codec string :=
  {| cache.gob_gzip := fun s => Some (list_byte_of_string s);
     cache.gzip_NewReader := fun _ => true;
     cache.gob_Decode := fun b => inl (string_of_list_byte b) |}.

(** An alert that [getAlertFrequency] counts at [now] for the window
    [since]. *)
Definition counted (now : time.Time) (since : time.Duration)
  (alert : views.Alert) : bool :=
  match views.DateCreated alert with
  | (_, Some _) => false
  | (createdAt, None) =>
      types.Valid createdAt
      && (time.Sub now (types.Time createdAt) <? since)
  end.

(** An alert whose creation time cannot be obtained or is not valid. *)
Definition undated (alert : views.Alert) : bool :=
  match views.DateCreated alert with
  | (_, Some _) => true
  | (createdAt, None) => negb (types.Valid createdAt)
  end.

(** Whether an event is a call of the client, made by the handler, that
    came back with [twilio.NoMoreResults]. *)
Definition reportedNoMoreResults (e : server.Event) : bool :=
  match e with
  | server.GetNextAlertPageInRange _ _ _ _ _ (inr NoMoreResults)
  | server.GetAlertPageInRange _ _ _ _ _ (inr NoMoreResults) => true
  | _ => false
  end.

(** Concrete collaborators, to run the code on examples. *)

(** URLs that consist of a path only. *)
Definition pathLib : url.Lib :=
  {| url.Parse := fun s =>
       inl {| url.Scheme := ""; url.Host := ""; url.Path := s;
              url.RawQuery := ""; url.Fragment := "" |};
     url.URL_String := url.Path |}.

(** A sealer that writes the nonce in front of the message. *)
Definition prefixSealer : services.Sealer :=
  {| services.Opaque := fun msg _ nonce =>
       (string_of_list_byte nonce ++ msg)%string |}.

Definition permissionDenied : config.Errors :=
  {| config.PermissionDenied := errorString "permission denied" |}.

Definition mediaURL (path : string) : url.URL :=
  {| url.Scheme := "https"; url.Host := "api.twilio.com"; url.Path := path;
     url.RawQuery := ""; url.Fragment := "" |}.

(** An upstream that holds two media files for every message. *)
Definition twoMedia : views.Client :=
  {| views.Messages_GetMediaURLs := fun _ _ =>
       inl [mediaURL "/Media/ME1"; mediaURL "/Media/ME2"];
     views.secretKey := [] |}.

Definition viewer : config.User :=
  {| config.CanViewMedia := true; config.CanViewAlerts := true |}.

Definition outsider : config.User :=
  {| config.CanViewMedia := false; config.CanViewAlerts := false |}.

(** A request environment: the signed-in user is [u], the time bounds
    parse, [getNext] answers [opened], the client answers [firstPage] to
    a first-page call and [nextPage] to a continuation call, the template
    renders, and the clock stands at [now]. *)
Definition demoEnv (u : config.User) (opened : string * option error)
  (firstPage nextPage : views.AlertPage + error) (now : time.Time)
  : server.Env :=
  {| server.GetUser := fun _ => Some u;
     server.GetLocationReq := fun _ => "UTC"%string;
     server.getTimes := fun _ _ _ _ _ => (0, now, false);
     server.getNext := fun _ _ => opened;
     server.setNextPageValsOnQuery := fun _ query => query;
     server.setPageFilters := fun _ vals => (vals, None);
     server.getEncryptedPage := fun n _ =>
       if types.NullString.Valid n then "sealed"%string else ""%string;
     server.Client_GetNextAlertPageInRange := fun _ _ _ _ _ => nextPage;
     server.Client_GetAlertPageInRange := fun _ _ _ _ _ => firstPage;
     server.render := fun _ => None;
     server.clock := fun _ => now |}.

Definition demoServer : server.alertListServer :=
  {| server.PageSize := 50; server.MaxResourceAge := 0; server.secretKey := [] |}.

Definition alertCreatedAt (t : time.Time) : views.Alert :=
  {| views.DateCreated := ({| types.Time := t; types.Valid := true |}, None) |}.

Definition pageOf (alerts : list views.Alert) : views.AlertPage :=
  {| views.Alerts := alerts;
     views.NextPageURI := views.NextPageURI views.newAlertPage;
     views.PreviousPageURI := views.PreviousPageURI views.newAlertPage |}.

(** The header that goes out with every rendered page. *)
Definition contentType : server.Event :=
  server.Header_Set "Content-Type" "text/html; charset=utf-8".

(** A request for a continuation page, and one for the first page. *)
Definition tokenRequest : server.Request :=
  {| server.URL_Query := [("next"%string, ["token"%string])] |}.

Definition firstPageRequest : server.Request :=
  {| server.URL_Query := [] |}.

(** The instant the examples take place at. *)
Definition noon : time.Time := 1000000 * time.Hour.

(** An alert whose [DateCreated] returns an error. *)
Definition hiddenAlert : views.Alert :=
  {| views.DateCreated :=
       ({| types.Time := 0; types.Valid := false |},
        Some (errorString "permission denied")) |}.

(** The page of the example: alerts created one minute, ten minutes and
    two hours before [noon]. *)
Definition threeAlerts : list views.Alert :=
  [ alertCreatedAt (noon - time.Minute);
    alertCreatedAt (noon - 10 * time.Minute);
    alertCreatedAt (noon - 2 * time.Hour) ].

End spec.

(** * Further vocabulary *)

Module extra.

(** What a [Cache.Get] gives back to its caller, the cache apart. *)
Definition answer {T} (o : outcome (cache.GetResult T * cache.Cache))
  : outcome (cache.GetResult T) :=
  match o with
  | Returned (res, _) => Returned res
  | Panicked => Panicked
  end.

(** An alert created less than [since] before [now], by plain
    arithmetic on instants. *)
Definition inWindow (now : time.Time) (since : time.Duration)
  (alert : views.Alert) : bool :=
  match views.DateCreated alert with
  | (_, Some _) => false
  | (createdAt, None) =>
      types.Valid createdAt && (now - types.Time createdAt <? since)
  end.

(** The context and the result of a client call made by the handler. *)
Definition foreground (e : server.Event)
  : option (server.Context * (views.AlertPage + error)) :=
  match e with
  | server.GetNextAlertPageInRange ctx _ _ _ _ result
  | server.GetAlertPageInRange ctx _ _ _ _ result => Some (ctx, result)
  | _ => None
  end.

(** What follows the rendering of a page: an error response when the
    template fails. *)
Definition renderTail (env : server.Env) (data : server.baseData)
  : list server.Event :=
  match server.render env data with
  | Some err => [server.rest_ServerError err]
  | None => []
  end.

(** The call that fetches the page after [page] ahead of time. *)
Definition prefetch (u : config.User) (startTime endTime : time.Time)
  (page : views.AlertPage) : list server.Event :=
  if types.NullString.Valid (views.NextPageURI page) then
    [server.go_GetNextAlertPageInRange u startTime endTime
       (types.NullString.String (views.NextPageURI page))]
  else [].

(** The request has passed the checks that come before the fetch: its
    user [u] may view alerts, its time bounds parsed to [startTime] and
    [endTime], and [getNext] gave [next] without an error. *)
Definition admitted (env : server.Env) (s : server.alertListServer)
  (r : server.Request) (u : config.User) (startTime endTime : time.Time)
  (next : string) : Prop :=
  server.GetUser env r = Some u
  /\ config.CanViewAlerts u = true
  /\ server.getTimes env r "alert-start" "alert-end"
       (server.GetLocationReq env r) (server.URL_Query r)
     = (startTime, endTime, false)
  /\ server.getNext env (server.URL_Query r) (server.secretKey s)
     = (next, None).

(** The one call of the client that the handler makes: the continuation
    call for a [next] that begins with the monitor base URL, the
    first-page call with the filtered values when there is no [next];
    [call] is the event, [result] what the client answered, and [query]
    the query the page is rendered with. *)
Definition fetched (env : server.Env) (s : server.alertListServer)
  (r : server.Request) (u : config.User) (startTime endTime : time.Time)
  (next : string) (call : server.Event)
  (result : views.AlertPage + error) (query : url.Values) : Prop :=
  let ctx := server.requestContext (3 * time.Second) in
  (next <> ""%string
   /\ strings.HasPrefix next twilio.MonitorBaseURL = true
   /\ result
      = server.Client_GetNextAlertPageInRange env ctx u startTime endTime next
   /\ call
      = server.GetNextAlertPageInRange ctx u startTime endTime next result
   /\ query = server.setNextPageValsOnQuery env next (server.URL_Query r))
  \/ (next = ""%string
      /\ exists vals,
           server.setPageFilters env (server.URL_Query r)
             (url.Values_Set [] "PageSize"
                (strings.FormatUint10 (server.PageSize s)))
           = (vals, None)
           /\ result
              = server.Client_GetAlertPageInRange env ctx u startTime endTime
                  vals
           /\ call
              = server.GetAlertPageInRange ctx u startTime endTime vals result
           /\ query = server.URL_Query r).

(** The status that goes with an error of the client. *)
Definition statusOf (err : error) : Z :=
  match err with
  | restError code _ =>
      if code =? 400 then 400 else if code =? 404 then 404 else 500
  | _ => 500
  end.

(** The events [l] answer a failed fetch: no further call, the status
    of the error, and a rendered page for a bad request only. *)
Definition failure (err : error) (l : list server.Event) : Prop :=
  server.clientCalls l = []
  /\ server.statusCode l = Some (statusOf err)
  /\ match err with
     | restError code title =>
         if code =? 400 then
           exists data,
             server.rendered l = Some data
             /\ server.Page (server.Data data) = views.newAlertPage
             /\ server.Err (server.Data data)
                = strings.Replace1 title "twilio: " ""
         else server.rendered l = None
     | _ => server.rendered l = None
     end.

(** The four buckets of a first page, read at the clock from its
    [n]-th reading on. *)
Definition buckets (env : server.Env) (alerts : list views.Alert) (n : nat)
  : list server.alertFrequency :=
  [ server.getAlertFrequency alerts "5 minutes" (5 * time.Minute)
      (server.clock env n);
    server.getAlertFrequency alerts "hour" time.Hour
      (server.clock env (1 + n));
    server.getAlertFrequency alerts "day" (24 * time.Hour)
      (server.clock env (2 + n));
    server.getAlertFrequency alerts "3 days" (24 * time.Hour)
      (server.clock env (3 + n)) ].

(** The shapes that the events of a request can take. *)
Inductive Outcome (env : server.Env) (s : server.alertListServer)
  (r : server.Request) : list server.Event -> Prop :=
| NoUser :
    server.GetUser env r = None ->
    Outcome env s r
      [server.rest_ServerError (errorString "No user available")]
| Forbidden (u : config.User) :
    server.GetUser env r = Some u ->
    config.CanViewAlerts u = false ->
    Outcome env s r [server.rest_Forbidden (restError 0 "Access denied")]
| BadTimes :
    Outcome env s r [server.getTimes_wroteError]
| BadRequest (data : server.baseData) :
    server.Page (server.Data data) = views.newAlertPage ->
    server.Freq (server.Data data) = [] ->
    Outcome env s r
      (spec.contentType :: server.WriteHeader 400
       :: server.render_base data :: renderTail env data)
| UpstreamError (u : config.User) (startTime endTime : time.Time)
    (next : string) (call : server.Event) (err : error)
    (query : url.Values) (l : list server.Event) :
    admitted env s r u startTime endTime next ->
    fetched env s r u startTime endTime next call (inr err) query ->
    err <> NoMoreResults ->
    failure err l ->
    Outcome env s r (call :: l)
| PageServed (u : config.User) (startTime endTime : time.Time)
    (next : string) (call : server.Event)
    (result : views.AlertPage + error) (query : url.Values)
    (page : views.AlertPage) (data : server.baseData) :
    admitted env s r u startTime endTime next ->
    fetched env s r u startTime endTime next call result query ->
    result = inl page
    \/ (result = inr NoMoreResults /\ page = views.newAlertPage) ->
    server.Page (server.Data data) = page ->
    server.Query (server.Data data) = query ->
    server.Err (server.Data data) = ""%string ->
    server.EncryptedNextPage (server.Data data)
    = server.getEncryptedPage env (views.NextPageURI page)
        (server.secretKey s) ->
    server.EncryptedPreviousPage (server.Data data)
    = server.getEncryptedPage env (views.PreviousPageURI page)
        (server.secretKey s) ->
    server.Freq (server.Data data)
    = (if String.eqb next "" then buckets env (views.Alerts page) 2 else []) ->
    Outcome env s r
      (call :: prefetch u startTime endTime page
       ++ spec.contentType :: server.WriteHeader 200
          :: server.render_base data :: renderTail env data).

(** The user and the time bounds that a call of the client is made
    for. *)
Definition callArgs (e : server.Event)
  : option (config.User * time.Time * time.Time) :=
  match e with
  | server.GetNextAlertPageInRange _ u startTime endTime _ _
  | server.GetAlertPageInRange _ u startTime endTime _ _
  | server.go_GetNextAlertPageInRange u startTime endTime _ =>
      Some (u, startTime, endTime)
  | _ => None
  end.

(** A page with one alert and a further page behind it. *)
Definition pageWithNext : views.AlertPage :=
  {| views.Alerts := [spec.alertCreatedAt (spec.noon - time.Minute)];
     views.NextPageURI :=
       {| types.NullString.String := "https://monitor.twilio.com/v1/Alerts?Page=1";
          types.NullString.Valid := true |};
     views.PreviousPageURI := views.PreviousPageURI views.newAlertPage |}.

(** The environment of [spec.demoEnv] for a first page, with a filter
    that [setPageFilters] rejects. *)
Definition badFilterEnv : server.Env :=
  {| server.GetUser := fun _ => Some spec.viewer;
     server.GetLocationReq := fun _ => "UTC"%string;
     server.getTimes := fun _ _ _ _ _ => (0, spec.noon, false);
     server.getNext := fun _ _ => (""%string, None);
     server.setNextPageValsOnQuery := fun _ query => query;
     server.setPageFilters := fun _ vals =>
       (vals, Some (errorString "Unknown log level"));
     server.getEncryptedPage := fun _ _ => ""%string;
     server.Client_GetNextAlertPageInRange := fun _ _ _ _ _ =>
       inr NoMoreResults;
     server.Client_GetAlertPageInRange := fun _ _ _ _ _ =>
       inr NoMoreResults;
     server.render := fun _ => None;
     server.clock := fun _ => spec.noon |}.

(** An environment whose first page is [pageWithNext], and one whose
    client does not find the resource. *)
Definition nextEnv : server.Env :=
  spec.demoEnv spec.viewer (""%string, None) (inl pageWithNext)
    (inr NoMoreResults) spec.noon.

Definition missingEnv : server.Env :=
  spec.demoEnv spec.viewer (""%string, None)
    (inr (restError 404 "The requested resource was not found"))
    (inr NoMoreResults) spec.noon.

(** An encoding of query values, to run the code on examples: the
    keys and their first values, joined. *)
Definition plainEncoding : url.Encoding :=
  {| url.Encode := fun v =>
       String.concat "&"
         (map (fun kv => (fst kv ++ "=" ++ hd "" (snd kv))%string) v) |}.

Definition searchDefaults : server.SearchDefaults :=
  {| server.minLoc := fun _ _ => "2016-01-01"%string;
     server.maxLoc := fun _ => "2016-12-31"%string;
     server.DefaultMaxResourceAge := 0 |}.

(** The data of a page in the middle of a search. *)
Definition middlePage : server.alertListData :=
  {| server.Page := views.newAlertPage;
     server.EncryptedNextPage := "sealed-next"%string;
     server.EncryptedPreviousPage := "sealed-previous"%string;
     server.Loc := "UTC"%string;
     server.Query := [("alert-start"%string, ["2016-10-01"%string]);
                      ("alert-end"%string, ["2016-10-31"%string]);
                      ("log-level"%string, ["error"%string])];
     server.Err := ""%string;
     server.Freq := [] |}.

(** The same page, seen backwards. *)
Definition middlePageBackwards : server.alertListData :=
  {| server.Page := views.newAlertPage;
     server.EncryptedNextPage := "sealed-previous"%string;
     server.EncryptedPreviousPage := "sealed-next"%string;
     server.Loc := "UTC"%string;
     server.Query := server.Query middlePage;
     server.Err := ""%string;
     server.Freq := [] |}.

(** Requests and collaborators for the handlers of serve.go. *)
Definition forwarded (proto path : string) : serve.Request :=
  {| serve.URL := {| url.Scheme := ""; url.Host := ""; url.Path := path;
                     url.RawQuery := ""; url.Fragment := "" |};
     serve.Host := "logrole.example.com";
     serve.Header := [("X-Forwarded-Proto"%string, [proto])] |}.

Definition oneAsset : serve.Assets :=
  {| serve.Asset := fun name =>
       if String.eqb name "static/css/style.css"
       then inl (list_byte_of_string "body {}")
       else inr (errorString "Asset not found");
     serve.Execute := None |}.

Definition noHandlers : serve.Handlers :=
  {| serve.Regexp := fun _ _ => [serve.rest_NotFound];
     serve.BasicAuth := fun h _ _ => h |}.

(** A codec for strings whose bytes never decode. *)
Definition brokenCodec : cache.Codec string :=
  {| cache.gob_gzip := fun s => Some (list_byte_of_string s);
     cache.gzip_NewReader := fun _ => true;
     cache.gob_Decode := fun _ => inr (errorString "gob: type mismatch") |}.

Definition entry (set expires : time.Time) (text : string)
  : cache.cacheVal :=
  cache.expiringBitsPtr
    {| cache.Set_ := set; cache.Expires := expires;
       cache.Bits := list_byte_of_string text |}.

(** Caches to run the code on: one entry, and two with ["b"] the more
    recently used. *)
Definition oneEntry : cache.Cache :=
  lru.Add "a" (entry 1000 1030 "x") (cache.NewCache 2).

Definition twoEntries : cache.Cache :=
  lru.Add "b" (entry 1001 1031 "y") oneEntry.

End extra.

(** * Properties of the cache *)

Section TimeFacts.

Lemma Sub_pos (t u : time.Time) : 0 < time.Sub t u <-> u < t.
Proof.
  unfold time.Sub, time.minDuration, time.maxDuration.
  destruct (Z.ltb_spec (t - u) (- 2 ^ 63)); [lia|].
  destruct (Z.ltb_spec (2 ^ 63 - 1) (t - u)); lia.
Qed.

End TimeFacts.

Section LruFacts.

Context {V : Type}.

Lemma lookup_removeElement (key : string) (l : list (string * V)) :
  lru.lookup key (lru.removeElement key l) = None.
Proof.
  induction l as [|[k v] l IH]; simpl; [reflexivity|].
  destruct (String.eqb k key) eqn:E; simpl; [exact IH|].
  rewrite E. exact IH.
Qed.

Lemma lookup_Add_same (key : string) (value : V) (c : lru.Cache V) :
  0 <= lru.MaxEntries c ->
  lru.lookup key (lru.ll (lru.Add key value c)) = Some value.
Proof.
  intros Hmax. unfold lru.Add.
  destruct (lru.lookup key (lru.ll c)) as [old|].
  - simpl. now rewrite String.eqb_refl.
  - cbv zeta.
    match goal with |- context [if ?b then _ else _] => destruct b eqn:E end.
    + apply andb_true_iff in E as [E0 E1].
      apply negb_true_iff, Z.eqb_neq in E0.
      apply Z.ltb_lt in E1.
      unfold lru.Len in E1. simpl in E0, E1 |- *.
      destruct (lru.ll c) as [|e rest].
      * simpl in E1. lia.
      * unfold lru.RemoveOldest. cbn. now rewrite String.eqb_refl.
    + simpl. now rewrite String.eqb_refl.
Qed.

Lemma Get_hit (key : string) (value : V) (c : lru.Cache V) :
  lru.lookup key (lru.ll c) = Some value ->
  exists c', lru.Get key c = (Some value, c')
             /\ lru.lookup key (lru.ll c') = Some value.
Proof.
  intros Hl. unfold lru.Get. rewrite Hl.
  eexists. split; [reflexivity|]. simpl. now rewrite String.eqb_refl.
Qed.

Lemma Get_miss (key : string) (c : lru.Cache V) :
  lru.lookup key (lru.ll c) = None -> lru.Get key c = (None, c).
Proof. intros Hl. unfold lru.Get. now rewrite Hl. Qed.




End LruFacts.

Section CacheProperties.

Context {T : Type} `{cache.Codec T}.

Lemma Set_returned (c : cache.Cache) (key : string) (v : T)
  (timeout : time.Duration) (now : time.Time) (c' : cache.Cache) :
  cache.Cache_Set c key v timeout now = Returned c' ->
  exists buf,
    cache.gob_gzip v = Some buf
    /\ c' = lru.Add key
              (cache.expiringBitsPtr
                 {| cache.Set_ := now;
                    cache.Expires := now + timeout;
                    cache.Bits := buf |}) c.
Proof.
  unfold cache.Cache_Set, cache.enc, time.Add.
  destruct (cache.gob_gzip v) as [buf|]; [|discriminate].
  intros [= <-]. now exists buf.
Qed.

Lemma Get_live (c : cache.Cache) (key : string) (e : cache.expiringBits)
  (v : T) (now : time.Time) :
  lru.lookup key (lru.ll c) = Some (cache.expiringBitsPtr e) ->
  now <= cache.Expires e ->
  cache.gzip_NewReader (cache.Bits e) = true ->
  cache.gob_Decode (cache.Bits e) = inl v ->
  exists c',
    cache.Cache_Get c key now
    = Returned ({| cache.val := Some v;
                   cache.stored := cache.Set_ e;
                   cache.err := None |}, c').
Proof.
  intros Hl Hnow Hgz Hdec. unfold cache.Cache_Get.
  destruct (Get_hit _ _ _ Hl) as (c1 & -> & _).
  replace (0 <? time.Since now (cache.Expires e)) with false.
  - rewrite Hgz, Hdec. now exists c1.
  - symmetry. apply Z.ltb_ge. unfold time.Since.
    destruct (Z.lt_ge_cases 0 (time.Sub now (cache.Expires e))) as [Hp|Hn];
      [|exact Hn].
    apply (proj1 (Sub_pos _ _)) in Hp. lia.
Qed.

Lemma Get_stale (c : cache.Cache) (key : string) (e : cache.expiringBits)
  (now : time.Time) :
  lru.lookup key (lru.ll c) = Some (cache.expiringBitsPtr e) ->
  cache.Expires e < now ->
  exists c',
    cache.Cache_Get c key now = Returned (cache.failed cache.expired, c')
    /\ lru.lookup key (lru.ll c') = None.
Proof.
  intros Hl Hnow. unfold cache.Cache_Get.
  destruct (Get_hit _ _ _ Hl) as (c1 & -> & _).
  replace (0 <? time.Since now (cache.Expires e)) with true.
  - eexists. split; [reflexivity|]. apply lookup_removeElement.
  - symmetry. apply Z.ltb_lt. unfold time.Since. now apply Sub_pos.
Qed.

Lemma Get_absent (c : cache.Cache) (key : string) (now : time.Time) :
  lru.lookup key (lru.ll c) = None ->
  cache.Cache_Get c key now = Returned (cache.failed cache.errNotFound, c).
Proof.
  intros Hl. unfold cache.Cache_Get. now rewrite (Get_miss _ _ Hl).
Qed.

(** C4, amended. In a cache of non-negative capacity ([MaxEntries]
    zero, for no limit, or positive), [Set(k, v, d)] of a serializable
    value with [d > 0], followed by a [Get(k, &out)] before the TTL has
    run out, succeeds: [out] receives [v], no error is
    returned, and the returned time is the clock reading of [Set], which
    lies in the window [t0 .. t1] of that call. *)
Theorem Set_then_Get (c : cache.Cache) (key : string) (v : T)
  (d : time.Duration) (t0 t1 now_set now_get : time.Time) :
  0 <= lru.MaxEntries c ->
  spec.serializable v ->
  0 < d ->
  t0 <= now_set <= t1 ->
  now_set <= now_get <= now_set + d ->
  exists c' c'' stored,
    cache.Cache_Set c key v d now_set = Returned c'
    /\ cache.Cache_Get c' key now_get
       = Returned ({| cache.val := Some v;
                      cache.stored := stored;
                      cache.err := None |}, c'')
    /\ stored = now_set
    /\ t0 <= stored <= t1.
Proof.
  intros Hmax (buf & Henc & Hgz & Hdec) Hd Hwin Hget.
  pose (e := {| cache.Set_ := now_set;
                cache.Expires := now_set + d;
                cache.Bits := buf |}).
  exists (lru.Add key (cache.expiringBitsPtr e) c).
  destruct (Get_live (lru.Add key (cache.expiringBitsPtr e) c) key e v now_get)
    as (c'' & Hg).
  - now apply lookup_Add_same.
  - simpl. lia.
  - exact Hgz.
  - exact Hdec.
  - exists c'', now_set. split; [|split; [|split]].
    + unfold cache.Cache_Set, cache.enc, time.Add. now rewrite Henc.
    + exact Hg.
    + reflexivity.
    + exact Hwin.
Qed.

(** C5, amended. In a cache of non-negative capacity ([MaxEntries]
    zero, for no limit, or positive), once more than [d] has passed
    since [Set(k, v, d)] returned, the next [Get(k, &out)] returns
    the [expired] error and leaves the cache without the key, and every
    later [Get(k, &out)] returns the not-found error. *)
Theorem Get_after_expiry (c c' : cache.Cache) (key : string) (v : T)
  (d : time.Duration) (now_set now_get : time.Time) :
  0 <= lru.MaxEntries c ->
  cache.Cache_Set c key v d now_set = Returned c' ->
  now_set + d < now_get ->
  exists c'',
    cache.Cache_Get (T := T) c' key now_get
    = Returned (cache.failed cache.expired, c'')
    /\ lru.lookup key (lru.ll c'') = None
    /\ forall later,
         cache.Cache_Get (T := T) c'' key later
         = Returned (cache.failed cache.errNotFound, c'').
Proof.
  intros Hmax Hset Hlate.
  apply Set_returned in Hset as (buf & _ & ->).
  match goal with |- context [lru.Add key (cache.expiringBitsPtr ?r) c] =>
    pose (e := r) end.
  destruct (Get_stale (lru.Add key (cache.expiringBitsPtr e) c) key e now_get)
    as (c'' & Hg & Hgone).
  - now apply lookup_Add_same.
  - simpl. lia.
  - exists c''. split; [exact Hg|]. split; [exact Hgone|].
    intros later. now apply Get_absent.
Qed.


End CacheProperties.

Lemma plainCodec_serializable (s : string) :
  spec.serializable (H := spec.plainCodec) s.
Proof.
  exists (list_byte_of_string s). repeat split.
  simpl. now rewrite string_of_list_byte_of_string.
Qed.

Lemma Set_then_Get_witness :
  exists c' c'' stored,
    cache.Cache_Set (H := spec.plainCodec) (cache.NewCache 2)
      "page" "alerts"%string (30 * time.Second) 1000
    = Returned c'
    /\ cache.Cache_Get (H := spec.plainCodec) c' "page" 1005
       = Returned ({| cache.val := Some "alerts"%string;
                      cache.stored := stored;
                      cache.err := None |}, c'')
    /\ stored = 1000
    /\ 990 <= stored <= 1001.
Proof.
  apply (Set_then_Get (H := spec.plainCodec) (cache.NewCache 2)
           "page" "alerts"%string (30 * time.Second) 990 1001 1000 1005).
  - simpl. lia.
  - apply plainCodec_serializable.
  - reflexivity.
  - lia.
  - vm_compute. split; discriminate.
Defined.

Lemma Get_after_expiry_witness :
  exists c'',
    cache.Cache_Get (H := spec.plainCodec)
      (lru.Add "page"
         (cache.expiringBitsPtr
            {| cache.Set_ := 1000;
               cache.Expires := 1030;
               cache.Bits := list_byte_of_string "alerts" |})
         (cache.NewCache 2))
      "page" 1031
    = Returned (cache.failed cache.expired, c'')
    /\ lru.lookup "page" (lru.ll c'') = None
    /\ forall later,
         cache.Cache_Get (H := spec.plainCodec) c'' "page" later
         = Returned (cache.failed cache.errNotFound, c'').
Proof.
  apply (Get_after_expiry (H := spec.plainCodec) (cache.NewCache 2) _
           "page" "alerts"%string 30 1000 1031).
  - simpl. lia.
  - reflexivity.
  - lia.
Defined.



(** C4 as stated fails: in a cache made with a negative size, [Set]
    of a serializable value with a positive TTL pushes the new entry and
    evicts it at once, the list being longer than [MaxEntries]; the [Get]
    that follows at the same clock reading reports that the key was not
    found. *)
Lemma Set_then_Get_negative_size :
  spec.serializable (H := spec.plainCodec) "alerts"%string
  /\ 0 < 30 * time.Second
  /\ exists c',
       cache.Cache_Set (H := spec.plainCodec) (cache.NewCache (-1))
         "page" "alerts"%string (30 * time.Second) 1000
       = Returned c'
       /\ cache.Cache_Get (H := spec.plainCodec) c' "page" 1000
          = Returned (cache.failed cache.errNotFound, c').
Proof.
  split; [apply plainCodec_serializable|]. split; [reflexivity|].
  eexists. split; reflexivity.
Qed.

(** C5 as stated fails: in a cache made with a negative size, the entry
    that [Set] stores is evicted at once, so the [Get] that comes after
    the TTL has passed returns the not-found error and not [expired]. *)
Lemma Get_after_expiry_negative_size :
  exists c',
    cache.Cache_Set (H := spec.plainCodec) (cache.NewCache (-1))
      "page" "alerts"%string 30 1000
    = Returned c'
    /\ 1000 + 30 < 1031
    /\ cache.Cache_Get (H := spec.plainCodec) c' "page" 1031
       = Returned (cache.failed cache.errNotFound, c')
    /\ cache.errNotFound <> cache.expired.
Proof.
  eexists. split; [reflexivity|]. split; [reflexivity|].
  split; [reflexivity|]. discriminate.
Qed.

(** * Properties of the media client *)

Section MediaProperties.

Context `{config.Errors} `{services.Sealer} `{url.Lib}.

Lemma opaqueLoop_sealed (vc : views.Client) (rand : nat -> services.Nonce)
  (urls : list url.URL) :
  (forall msg nonce, exists opaqueURL,
      url.Parse ("/images/" ++ services.Opaque msg (views.secretKey vc) nonce)
      = inl opaqueURL) ->
  forall i, exists opaqueImages,
    views.opaqueLoop vc rand urls i = inl opaqueImages
    /\ List.length opaqueImages = List.length urls
    /\ Forall2 (fun u opaqueURL =>
                  exists nonce,
                    url.Parse
                      ("/images/"
                       ++ services.Opaque (url.URL_String u)
                            (views.secretKey vc) nonce)
                    = inl opaqueURL)
         urls opaqueImages.
Proof.
  intros Hparse. induction urls as [|u rest IH]; intros i;
    cbn [views.opaqueLoop].
  - exists []. repeat split. constructor.
  - destruct (Hparse (url.URL_String u) (rand i)) as (o & Ho).
    rewrite Ho. destruct (IH (S i)) as (os & -> & Hlen & Hall).
    exists (o :: os). split; [reflexivity|]. split; [simpl; now f_equal|].
    constructor; [|exact Hall]. exists (rand i). exact Ho.
Qed.

(** C3. For a user who may view media and a successful upstream fetch,
    [GetMediaURLs] returns as many URLs as the upstream gave, and each is
    the parse of a local path [/images/<token>] whose token is the
    upstream URL's text sealed by [services.Opaque] under the client's
    secret key.  [url.Parse] is taken to accept such paths, the tokens
    being URL-safe text. *)
Theorem GetMediaURLs_sealed (vc : views.Client)
  (rand : nat -> services.Nonce) (u : config.User) (sid : string)
  (urls : list url.URL) :
  config.CanViewMedia u = true ->
  views.Messages_GetMediaURLs vc sid views.mediaUrlsFilters = inl urls ->
  (forall msg nonce, exists opaqueURL,
      url.Parse ("/images/" ++ services.Opaque msg (views.secretKey vc) nonce)
      = inl opaqueURL) ->
  exists opaqueImages,
    fst (views.GetMediaURLs vc rand u sid) = inl opaqueImages
    /\ List.length opaqueImages = List.length urls
    /\ Forall2
         (fun upstream opaqueURL =>
            exists nonce,
              url.Parse
                ("/images/"
                 ++ services.Opaque (url.URL_String upstream)
                      (views.secretKey vc) nonce)
              = inl opaqueURL)
         urls opaqueImages.
Proof.
  intros Hcan Hup Hparse. unfold views.GetMediaURLs.
  rewrite Hcan, Hup. simpl. now apply opaqueLoop_sealed.
Qed.

Lemma GetMediaURLs_denied (vc : views.Client)
  (rand : nat -> services.Nonce) (u : config.User) (sid : string) :
  config.CanViewMedia u = false ->
  views.GetMediaURLs vc rand u sid = (inr config.PermissionDenied, []).
Proof. intros Hcan. unfold views.GetMediaURLs. now rewrite Hcan. Qed.

End MediaProperties.

Lemma GetMediaURLs_sealed_witness :
  exists opaqueImages,
    fst (views.GetMediaURLs (H := spec.permissionDenied)
           (H0 := spec.prefixSealer) (H1 := spec.pathLib)
           spec.twoMedia (fun _ => []) spec.viewer "MM1")
    = inl opaqueImages
    /\ List.length opaqueImages = 2%nat
    /\ Forall2
         (fun upstream opaqueURL =>
            exists nonce,
              url.Parse (Lib := spec.pathLib)
                ("/images/"
                 ++ services.Opaque (Sealer := spec.prefixSealer)
                      (url.URL_String (Lib := spec.pathLib) upstream)
                      (views.secretKey spec.twoMedia) nonce)
              = inl opaqueURL)
         [spec.mediaURL "/Media/ME1"; spec.mediaURL "/Media/ME2"]
         opaqueImages.
Proof.
  apply (GetMediaURLs_sealed (H := spec.permissionDenied)
           (H0 := spec.prefixSealer) (H1 := spec.pathLib)
           spec.twoMedia (fun _ => []) spec.viewer "MM1"
           [spec.mediaURL "/Media/ME1"; spec.mediaURL "/Media/ME2"]).
  - reflexivity.
  - reflexivity.
  - intros msg nonce. eexists. reflexivity.
Defined.

(** * Properties of the alert frequency buckets *)

Section FrequencyProperties.

Variables (now : time.Time) (since : time.Duration).

Lemma filter_length_le' {A} (f : A -> bool) (l : list A) :
  (List.length (filter f l) <= List.length l)%nat.
Proof.
  induction l as [|a l IH]; simpl; [lia|]. destruct (f a); simpl; lia.
Qed.

Lemma filter_length_all {A} (f : A -> bool) (l : list A) :
  List.length (filter f l) = List.length l <-> forallb f l = true.
Proof.
  induction l as [|a l IH]; simpl; [tauto|].
  pose proof (filter_length_le' f l) as Hle.
  destruct (f a); simpl.
  - rewrite <- IH. split; intros Hx; lia.
  - split; [lia | discriminate].
Qed.

Lemma filter_length_some_out {A} (f : A -> bool) (l : list A) :
  Exists (fun a => f a = false) l ->
  (List.length (filter f l) < List.length l)%nat.
Proof.
  induction 1 as [a l Ha | a l _ IH]; simpl.
  - rewrite Ha. pose proof (filter_length_le' f l). lia.
  - destruct (f a); simpl; [lia|].
    pose proof (filter_length_le' f l). lia.
Qed.

Lemma countAlerts_counted (alerts : list views.Alert) (count : Z) :
  0 <= count ->
  count + Z.of_nat (List.length alerts) < 2 ^ 64 ->
  server.countAlerts now since alerts count
  = count + Z.of_nat (List.length (filter (spec.counted now since) alerts)).
Proof.
  revert count. induction alerts as [|a rest IH]; intros count Hlo Hhi.
  - simpl. lia.
  - cbn [server.countAlerts filter]. unfold spec.counted at 1.
    cbn [List.length] in Hhi.
    destruct (views.DateCreated a) as [createdAt [e|]].
    + apply IH; lia.
    + destruct (types.Valid createdAt
                && (time.Sub now (types.Time createdAt) <? since)).
      * rewrite IH.
        -- unfold server.uintIncr. rewrite Z.mod_small by lia.
           cbn [List.length]. lia.
        -- unfold server.uintIncr. rewrite Z.mod_small by lia. lia.
        -- unfold server.uintIncr. rewrite Z.mod_small by lia. lia.
      * apply IH; lia.
Qed.

Lemma Count_counted (alerts : list views.Alert) (name : string) :
  Z.of_nat (List.length alerts) < 2 ^ 63 ->
  server.Count (server.getAlertFrequency alerts name since now)
  = Z.of_nat (List.length (filter (spec.counted now since) alerts)).
Proof.
  intros Hlen. unfold server.getAlertFrequency. cbn [server.Count].
  rewrite countAlerts_counted; lia.
Qed.

Lemma HaveMore_spec (alerts : list views.Alert) (name : string) :
  Z.of_nat (List.length alerts) < 2 ^ 63 ->
  let f := server.getAlertFrequency alerts name since now in
  server.HaveMore f = true
  <-> 0 < server.Count f /\ server.Count f = Z.of_nat (List.length alerts).
Proof.
  intros Hlen f.
  pose proof (Count_counted alerts name Hlen) as Hc. fold f in Hc.
  pose proof (filter_length_le' (spec.counted now since) alerts) as Hle.
  unfold f, server.getAlertFrequency in *. cbn [server.Count server.HaveMore] in *.
  set (count := server.countAlerts now since alerts 0) in *.
  unfold server.intOfUint.
  destruct (Z.ltb_spec count (2 ^ 63)); [|lia].
  rewrite andb_true_iff, Z.ltb_lt, Z.leb_le. lia.
Qed.

(** C9, amended. For a list of alerts and a window, [HaveMore] is true
    exactly when the list is not empty and the bucket's count equals the
    number of records examined; the count equals that number exactly
    when every record falls inside the window. *)
Theorem HaveMore_iff (alerts : list views.Alert) (name : string) :
  Z.of_nat (List.length alerts) < 2 ^ 63 ->
  let f := server.getAlertFrequency alerts name since now in
  (server.HaveMore f = true
   <-> alerts <> [] /\ server.Count f = Z.of_nat (List.length alerts))
  /\ (server.Count f = Z.of_nat (List.length alerts)
      <-> forallb (spec.counted now since) alerts = true).
Proof.
  intros Hlen f. split.
  - unfold f. rewrite (HaveMore_spec alerts name Hlen). cbv zeta.
    destruct alerts as [|a rest].
    + cbn. split; [lia | intros [Hne _]; now contradiction Hne].
    + split; intros [Hx Hy]; (split; [|exact Hy]).
      * discriminate.
      * rewrite Hy. cbn [List.length]. lia.
  - unfold f. rewrite (Count_counted alerts name Hlen).
    rewrite <- filter_length_all. split; intros Hx; lia.
Qed.

(** C10. An alert whose creation time cannot be obtained, or is not
    valid, is never counted: the count is the number of alerts that are
    dated, valid and inside the window.  Such an alert still adds to the
    length the count is compared with, so a page that contains one has a
    count below its length and [HaveMore] false. *)
Theorem undated_alert_blocks_HaveMore (alerts : list views.Alert)
  (name : string) :
  Z.of_nat (List.length alerts) < 2 ^ 63 ->
  let f := server.getAlertFrequency alerts name since now in
  server.Count f
  = Z.of_nat (List.length (filter (spec.counted now since) alerts))
  /\ (forall a, spec.undated a = true -> spec.counted now since a = false)
  /\ (Exists (fun a => spec.undated a = true) alerts ->
      server.Count f < Z.of_nat (List.length alerts)
      /\ server.HaveMore f = false).
Proof.
  intros Hlen f.
  assert (Hund : forall a, spec.undated a = true ->
                           spec.counted now since a = false).
  { intros a. unfold spec.undated, spec.counted.
    destruct (views.DateCreated a) as [createdAt [e|]]; [reflexivity|].
    intros Hv. apply negb_true_iff in Hv. now rewrite Hv. }
  split; [|split].
  - apply Count_counted, Hlen.
  - exact Hund.
  - intros Hex.
    assert (Hlt : server.Count f < Z.of_nat (List.length alerts)).
    { unfold f. rewrite (Count_counted alerts name Hlen).
      apply inj_lt, filter_length_some_out.
      eapply Exists_impl; [|exact Hex]. exact Hund. }
    split; [exact Hlt|].
    destruct (server.HaveMore f) eqn:Hm; [|reflexivity].
    apply (HaveMore_spec alerts name Hlen) in Hm. fold f in Hm. lia.
Qed.

End FrequencyProperties.

(** * Properties of the alert list handler *)

Section ServeProperties.

Variables (env : server.Env) (s : server.alertListServer)
  (r : server.Request).

Lemma renderBase_run (data : server.baseData) (w : server.World) :
  server.renderBase env data w
  = (tt, {| server.ticks := server.ticks w;
            server.trace :=
              server.trace w
              ++ server.render_base data
                 :: match server.render env data with
                    | Some err => [server.rest_ServerError err]
                    | None => []
                    end |}).
Proof.
  unfold server.renderBase, server.bind, server.emit, server.ret.
  destruct (server.render env data); cbn.
  - now rewrite <- app_assoc.
  - reflexivity.
Qed.

Lemma renderError_run (code : Z) (query : url.Values) (e : error)
  (w : server.World) :
  exists data,
    server.renderError env s r code query (Some e) w
    = (tt, {| server.ticks := server.ticks w;
              server.trace :=
                server.trace w
                ++ spec.contentType :: server.WriteHeader code
                   :: server.render_base data
                   :: match server.render env data with
                      | Some err => [server.rest_ServerError err]
                      | None => []
                      end |})
    /\ server.Page (server.Data data) = views.newAlertPage
    /\ server.Query (server.Data data) = query
    /\ server.Err (server.Data data)
       = strings.Replace1 (Error e) "twilio: " "".
Proof.
  eexists. split.
  - unfold server.renderError, server.bind, server.emit.
    rewrite renderBase_run. cbn [server.ticks server.trace].
    rewrite <- !app_assoc. reflexivity.
  - repeat split.
Qed.

Lemma serveResult_page (u : config.User) (startTime endTime start : time.Time)
  (next : string) (query : url.Values) (page : views.AlertPage)
  (w : server.World) :
  exists data ticks',
    server.serveResult env s r u startTime endTime start next query (inl page) w
    = (tt, {| server.ticks := ticks';
              server.trace :=
                server.trace w
                ++ (if types.NullString.Valid (views.NextPageURI page)
                    then [server.go_GetNextAlertPageInRange u startTime endTime
                            (types.NullString.String (views.NextPageURI page))]
                    else [])
                ++ spec.contentType :: server.WriteHeader 200
                   :: server.render_base data
                   :: match server.render env data with
                      | Some err => [server.rest_ServerError err]
                      | None => []
                      end |})
    /\ server.Page (server.Data data) = page
    /\ server.Query (server.Data data) = query
    /\ server.Err (server.Data data) = ""%string
    /\ server.Freq (server.Data data)
       = if String.eqb next ""
         then
           let alerts := views.Alerts page in
           let n := server.ticks w in
           [ server.getAlertFrequency alerts "5 minutes" (5 * time.Minute)
               (server.clock env (1 + n));
             server.getAlertFrequency alerts "hour" time.Hour
               (server.clock env (2 + n));
             server.getAlertFrequency alerts "day" (24 * time.Hour)
               (server.clock env (3 + n));
             server.getAlertFrequency alerts "3 days" (24 * time.Hour)
               (server.clock env (4 + n)) ]
         else [].
Proof.
  unfold server.serveResult, server.bind, server.emit, server.ret, server.Now.
  destruct (types.NullString.Valid (views.NextPageURI page));
    destruct (String.eqb next "");
    cbn [server.ticks server.trace];
    rewrite renderBase_run; cbn [server.ticks server.trace];
    eexists; eexists; (split; [rewrite <- ?app_assoc; reflexivity|]);
    repeat split.
Qed.

Lemma serveResult_error (u : config.User) (startTime endTime start : time.Time)
  (next : string) (query : url.Values) (err : error) (w : server.World) :
  err <> NoMoreResults ->
  exists l,
    server.serveResult env s r u startTime endTime start next query (inr err) w
    = (tt, {| server.ticks := server.ticks w;
              server.trace := server.trace w ++ l |})
    /\ server.clientCalls l = []
    /\ existsb spec.reportedNoMoreResults l = false.
Proof.
  intros Hne. unfold server.serveResult.
  destruct err as [|code title|text]; [now contradiction Hne| |].
  - destruct (code =? 400).
    + destruct (renderError_run server.StatusBadRequest query
                  (restError code title) w) as (data & -> & _).
      eexists. split; [reflexivity|].
      destruct (server.render env data); split; reflexivity.
    + destruct (code =? 404); eexists; (split; [reflexivity|]);
        split; reflexivity.
  - eexists. split; [reflexivity|]. split; reflexivity.
Qed.


Lemma served_invalid_next (u : config.User)
  (startTime endTime : time.Time) (next : string) (nextErr : option error) :
  server.GetUser env r = Some u ->
  config.CanViewAlerts u = true ->
  server.getTimes env r "alert-start" "alert-end"
    (server.GetLocationReq env r) (server.URL_Query r)
  = (startTime, endTime, false) ->
  server.getNext env (server.URL_Query r) (server.secretKey s)
  = (next, nextErr) ->
  nextErr <> None
  \/ (next <> ""%string
      /\ strings.HasPrefix next twilio.MonitorBaseURL = false) ->
  exists data err,
    server.served env s r
    = spec.contentType :: server.WriteHeader 400 :: server.render_base data
      :: match server.render env data with
         | Some rerr => [server.rest_ServerError rerr]
         | None => []
         end
    /\ server.Page (server.Data data) = views.newAlertPage
    /\ server.Err (server.Data data)
       = strings.Replace1 (Error err) "twilio: " ""
    /\ ((exists nerr,
            nextErr = Some nerr
            /\ err = errorString
                       ("Could not decrypt `next` query parameter: "
                        ++ Error nerr))
        \/ (nextErr = None
            /\ err = errorString "Invalid next page uri")).
Proof.
  intros Hu Hcan Htimes Hnext Hbad.
  unfold server.served, server.ServeHTTP.
  rewrite Hu, Hcan. cbn [negb]. cbv zeta. rewrite Htimes, Hnext.
  destruct nextErr as [nerr|].
  - match goal with |- context [server.renderError _ _ _ ?c ?q (Some ?e) ?w] =>
      destruct (renderError_run c q e w) as (data & -> & Hp & _ & He) end.
    exists data. eexists. split; [reflexivity|]. split; [exact Hp|].
    split; [exact He|]. left. now exists nerr.
  - destruct Hbad as [Hbad|[Hne Hpre]]; [now contradiction Hbad|].
    apply String.eqb_neq in Hne.
    unfold server.bind, server.Now. cbn [server.ticks server.trace server.start].
    rewrite Hne, Hpre. cbn [negb].
    match goal with |- context [server.renderError _ _ _ ?c ?q (Some ?e) ?w] =>
      destruct (renderError_run c q e w) as (data & -> & Hp & _ & He) end.
    exists data. eexists. split; [reflexivity|]. split; [exact Hp|].
    split; [exact He|]. now right.
Qed.

(** C1, amended. For a request of a user who may view alerts and whose
    time bounds parse: if opening the [next] token fails, or it opens to
    a non-empty cleartext that does not begin with
    [twilio.MonitorBaseURL], the response has status 400, the page is
    rendered empty with the invalid-token message, and the client is not
    called, neither by the handler nor in the goroutine. *)
Theorem invalid_next_is_bad_request (u : config.User)
  (startTime endTime : time.Time) (next : string) (nextErr : option error) :
  server.GetUser env r = Some u ->
  config.CanViewAlerts u = true ->
  server.getTimes env r "alert-start" "alert-end"
    (server.GetLocationReq env r) (server.URL_Query r)
  = (startTime, endTime, false) ->
  server.getNext env (server.URL_Query r) (server.secretKey s)
  = (next, nextErr) ->
  nextErr <> None
  \/ (next <> ""%string
      /\ strings.HasPrefix next twilio.MonitorBaseURL = false) ->
  server.statusCode (server.served env s r) = Some 400
  /\ server.clientCalls (server.served env s r) = []
  /\ exists data err,
       server.rendered (server.served env s r) = Some data
       /\ server.Page (server.Data data) = views.newAlertPage
       /\ server.Err (server.Data data)
          = strings.Replace1 (Error err) "twilio: " ""
       /\ ((exists nerr,
               nextErr = Some nerr
               /\ err = errorString
                          ("Could not decrypt `next` query parameter: "
                           ++ Error nerr))
           \/ (nextErr = None
               /\ err = errorString "Invalid next page uri")).
Proof.
  intros Hu Hcan Htimes Hnext Hbad.
  destruct (served_invalid_next u startTime endTime next nextErr
              Hu Hcan Htimes Hnext Hbad) as (data & err & -> & Hp & He & Hwhy).
  split; [reflexivity|]. split.
  - destruct (server.render env data); reflexivity.
  - exists data, err. split; [reflexivity|]. now repeat split.
Qed.


Lemma serveResult_NoMoreResults (u : config.User)
  (startTime endTime start : time.Time) (next : string) (query : url.Values)
  (result : views.AlertPage + error) (call : server.Event) (n : nat) :
  (forall l, server.statusCode (call :: l) = server.statusCode l) ->
  (forall l, server.rendered (call :: l) = server.rendered l) ->
  spec.reportedNoMoreResults call
  = match result with inr NoMoreResults => true | _ => false end ->
  let tr :=
    server.trace
      (snd (server.serveResult env s r u startTime endTime start next query
              result {| server.ticks := n; server.trace := [call] |})) in
  existsb spec.reportedNoMoreResults tr = true ->
  server.statusCode tr = Some 200
  /\ exists data,
       server.rendered tr = Some data
       /\ server.Page (server.Data data) = views.newAlertPage
       /\ server.Err (server.Data data) = ""%string
       /\ (server.render env data = None ->
           tr = [call; spec.contentType; server.WriteHeader 200;
                 server.render_base data]).
Proof.
  intros Hstatus Hrendered Hcall tr. subst tr.
  assert (Hempty :
    server.serveResult env s r u startTime endTime start next query
      (inr NoMoreResults)
    = server.serveResult env s r u startTime endTime start next query
        (inl views.newAlertPage)) by reflexivity.
  destruct result as [page|err].
  - destruct (serveResult_page u startTime endTime start next query page
                {| server.ticks := n; server.trace := [call] |})
      as (data & ticks' & -> & _).
    cbn [snd server.trace app existsb]. rewrite Hcall.
    destruct (types.NullString.Valid (views.NextPageURI page));
      destruct (server.render env data); discriminate.
  - destruct err as [|code title|text].
    + rewrite Hempty.
      destruct (serveResult_page u startTime endTime start next query
                  views.newAlertPage
                  {| server.ticks := n; server.trace := [call] |})
        as (data & ticks' & -> & Hp & _ & He & _).
      intros _. cbn [snd server.trace app views.newAlertPage
                       views.NextPageURI types.NullString.Valid].
      rewrite Hstatus, Hrendered. split; [reflexivity|].
      exists data. split; [reflexivity|]. split; [exact Hp|].
      split; [exact He|]. now intros ->.
    + destruct (serveResult_error u startTime endTime start next query
                  (restError code title)
                  {| server.ticks := n; server.trace := [call] |})
        as (l & -> & _ & Hl); [discriminate|].
      cbn [snd server.trace app existsb]. rewrite Hcall, Hl. discriminate.
    + destruct (serveResult_error u startTime endTime start next query
                  (errorString text)
                  {| server.ticks := n; server.trace := [call] |})
        as (l & -> & _ & Hl); [discriminate|].
      cbn [snd server.trace app existsb]. rewrite Hcall, Hl. discriminate.
Qed.

(** C7. Whenever a call of the client made by the handler comes back
    with [twilio.NoMoreResults], the response has status 200 and the
    page template is rendered with an empty page and an empty error
    message; when the template renders, the call, the header and the
    page are all that happens: no error response is written and no page
    is fetched ahead. *)
Theorem NoMoreResults_is_empty_page :
  existsb spec.reportedNoMoreResults (server.served env s r) = true ->
  server.statusCode (server.served env s r) = Some 200
  /\ exists data,
       server.rendered (server.served env s r) = Some data
       /\ server.Page (server.Data data) = views.newAlertPage
       /\ server.Err (server.Data data) = ""%string
       /\ (server.render env data = None ->
           exists call,
             server.served env s r
             = [call; spec.contentType; server.WriteHeader 200;
                server.render_base data]).
Proof.
  assert (Hweaken : forall tr call,
    (server.statusCode tr = Some 200
     /\ exists data,
          server.rendered tr = Some data
          /\ server.Page (server.Data data) = views.newAlertPage
          /\ server.Err (server.Data data) = ""%string
          /\ (server.render env data = None ->
              tr = [call; spec.contentType; server.WriteHeader 200;
                    server.render_base data])) ->
    server.statusCode tr = Some 200
    /\ exists data,
         server.rendered tr = Some data
         /\ server.Page (server.Data data) = views.newAlertPage
         /\ server.Err (server.Data data) = ""%string
         /\ (server.render env data = None ->
             exists call',
               tr = [call'; spec.contentType; server.WriteHeader 200;
                     server.render_base data])).
  { intros tr call (Hs & data & Hr & Hp & He & Hall).
    split; [exact Hs|]. exists data. repeat split; try assumption.
    intros Hok. exists call. now apply Hall. }
  unfold server.served, server.ServeHTTP.
  destruct (server.GetUser env r) as [u|]; [|discriminate].
  destruct (config.CanViewAlerts u); [|discriminate]. cbn [negb]. cbv zeta.
  destruct (server.getTimes _ _ _ _ _ _) as [[startTime endTime] wrote].
  destruct wrote; [discriminate|].
  destruct (server.getNext _ _ _) as [next [nerr|]].
  - match goal with |- context [server.renderError _ _ _ ?c ?q (Some ?e) ?w] =>
      destruct (renderError_run c q e w) as (data & -> & _) end.
    destruct (server.render env data); discriminate.
  - unfold server.bind, server.Now, server.emit.
    cbn [server.ticks server.trace server.start app].
    destruct (String.eqb next ""); cbn [negb].
    + destruct (server.setPageFilters _ _ _) as [vals [ferr|]].
      * match goal with |- context [server.renderError _ _ _ ?c ?q (Some ?e) ?w] =>
          destruct (renderError_run c q e w) as (data & -> & _) end.
        destruct (server.render env data); discriminate.
      * intros Hrep. eapply Hweaken.
        apply serveResult_NoMoreResults; [reflexivity .. | exact Hrep].
    + destruct (strings.HasPrefix next twilio.MonitorBaseURL); cbn [negb].
      * intros Hrep. eapply Hweaken.
        apply serveResult_NoMoreResults; [reflexivity .. | exact Hrep].
      * match goal with |- context [server.renderError _ _ _ ?c ?q (Some ?e) ?w] =>
          destruct (renderError_run c q e w) as (data & -> & _) end.
        destruct (server.render env data); discriminate.
Qed.


Lemma served_forbidden (u : config.User) :
  server.GetUser env r = Some u ->
  config.CanViewAlerts u = false ->
  server.served env s r
  = [server.rest_Forbidden (restError 0 "Access denied")].
Proof.
  intros Hu Hcan. unfold server.served, server.ServeHTTP.
  now rewrite Hu, Hcan.
Qed.

End ServeProperties.

Lemma invalid_next_is_bad_request_witness :
  server.statusCode
    (server.served
       (spec.demoEnv spec.viewer ("https://example.com/Alerts"%string, None)
          (inl (spec.pageOf [])) (inl (spec.pageOf [])) spec.noon)
       spec.demoServer spec.tokenRequest)
  = Some 400.
Proof.
  refine (proj1 (invalid_next_is_bad_request
                   (spec.demoEnv spec.viewer
                      ("https://example.com/Alerts"%string, None)
                      (inl (spec.pageOf [])) (inl (spec.pageOf [])) spec.noon)
                   spec.demoServer spec.tokenRequest spec.viewer
                   0 spec.noon "https://example.com/Alerts" None
                   _ _ _ _ _)).
  - reflexivity.
  - reflexivity.
  - reflexivity.
  - reflexivity.
  - right. split; [discriminate | reflexivity].
Defined.

(** C1 as stated fails: a token that opens to the empty string, which
    does not begin with [twilio.MonitorBaseURL], is served as a first
    page, with status 200 and a call of the client.  Such a token is
    what sealing the empty string gives, as opening a sealed string
    returns that string. *)
Lemma empty_cleartext_reaches_client :
  let env :=
    spec.demoEnv spec.viewer (""%string, None)
      (inl (spec.pageOf [])) (inl (spec.pageOf [])) spec.noon in
  url.Get (server.URL_Query spec.tokenRequest) "next" = "token"%string
  /\ server.getNext env (server.URL_Query spec.tokenRequest)
       (server.secretKey spec.demoServer)
     = (""%string, None)
  /\ strings.HasPrefix "" twilio.MonitorBaseURL = false
  /\ server.statusCode (server.served env spec.demoServer spec.tokenRequest)
     = Some 200
  /\ server.clientCalls (server.served env spec.demoServer spec.tokenRequest)
     <> [].
Proof.
  cbv zeta. repeat split; try reflexivity. vm_compute. discriminate.
Qed.

Lemma NoMoreResults_is_empty_page_witness :
  server.statusCode
    (server.served
       (spec.demoEnv spec.viewer (""%string, None)
          (inr NoMoreResults) (inr NoMoreResults) spec.noon)
       spec.demoServer spec.firstPageRequest)
  = Some 200.
Proof.
  refine (proj1 (NoMoreResults_is_empty_page
                   (spec.demoEnv spec.viewer (""%string, None)
                      (inr NoMoreResults) (inr NoMoreResults) spec.noon)
                   spec.demoServer spec.firstPageRequest _)).
  reflexivity.
Defined.

Section DeniedProperties.

Context `{config.Errors} `{services.Sealer} `{url.Lib}.

(** C2. A user who may not view media gets [config.PermissionDenied]
    from [GetMediaURLs] and no request goes upstream; a request of a user
    who may not view alerts is answered by [rest.Forbidden], with status
    403, and the client is not called. *)
Theorem forbidden_kind_denied_locally (u : config.User) :
  (config.CanViewMedia u = false ->
   forall (vc : views.Client) (rand : nat -> services.Nonce) (sid : string),
     views.GetMediaURLs vc rand u sid = (inr config.PermissionDenied, []))
  /\ (config.CanViewAlerts u = false ->
      forall (env : server.Env) (s : server.alertListServer)
             (r : server.Request),
        server.GetUser env r = Some u ->
        server.served env s r
        = [server.rest_Forbidden (restError 0 "Access denied")]
        /\ server.statusCode (server.served env s r) = Some 403
        /\ server.clientCalls (server.served env s r) = []).
Proof.
  split.
  - intros Hcan vc rand sid. now apply GetMediaURLs_denied.
  - intros Hcan env s r Hu.
    rewrite (served_forbidden env s r u Hu Hcan). repeat split.
Qed.

End DeniedProperties.

Lemma forbidden_kind_denied_locally_witness :
  views.GetMediaURLs (H := spec.permissionDenied) (H0 := spec.prefixSealer)
    (H1 := spec.pathLib) spec.twoMedia (fun _ => []) spec.outsider "MM1"
  = (inr (errorString "permission denied"), [])
  /\ server.served
       (spec.demoEnv spec.outsider (""%string, None)
          (inl (spec.pageOf [])) (inl (spec.pageOf [])) spec.noon)
       spec.demoServer spec.firstPageRequest
     = [server.rest_Forbidden (restError 0 "Access denied")].
Proof.
  destruct (forbidden_kind_denied_locally (H := spec.permissionDenied)
              (H0 := spec.prefixSealer) (H1 := spec.pathLib) spec.outsider)
    as [Hmedia Halerts].
  split.
  - apply Hmedia. reflexivity.
  - apply Halerts; reflexivity.
Defined.

(** C8. On the first page the handler names its fourth bucket
    ["3 days"] and gives it a window of 24 hours: an alert created two
    days before the request, well inside three days, is not counted in
    it. *)
Theorem three_days_bucket_spans_one_day :
  let created := spec.noon - 48 * time.Hour in
  let env :=
    spec.demoEnv spec.viewer (""%string, None)
      (inl (spec.pageOf [spec.alertCreatedAt created]))
      (inr NoMoreResults) spec.noon in
  time.Sub spec.noon created < 3 * (24 * time.Hour)
  /\ exists data bucket,
       server.rendered (server.served env spec.demoServer spec.firstPageRequest)
       = Some data
       /\ map server.Name (server.Freq (server.Data data))
          = ["5 minutes"; "hour"; "day"; "3 days"]%string
       /\ map server.Since (server.Freq (server.Data data))
          = [5 * time.Minute; time.Hour; 24 * time.Hour; 24 * time.Hour]
       /\ nth_error (server.Freq (server.Data data)) 3 = Some bucket
       /\ server.Since bucket = 24 * time.Hour
       /\ server.Count bucket = 0.
Proof.
  cbv zeta. split; [reflexivity|].
  eexists. eexists. split; [vm_compute; reflexivity|].
  repeat split.
Qed.

Lemma HaveMore_iff_witness :
  let f := server.getAlertFrequency spec.threeAlerts "day"
             (24 * time.Hour) spec.noon in
  (server.HaveMore f = true
   <-> spec.threeAlerts <> []
       /\ server.Count f = Z.of_nat (List.length spec.threeAlerts))
  /\ (server.Count f = Z.of_nat (List.length spec.threeAlerts)
      <-> forallb (spec.counted spec.noon (24 * time.Hour)) spec.threeAlerts
          = true).
Proof.
  apply (HaveMore_iff spec.noon (24 * time.Hour) spec.threeAlerts "day").
  vm_compute. reflexivity.
Defined.

(** C9 as stated fails: on an empty page the count equals the number of
    records examined, both being zero, and [HaveMore] is false. *)
Lemma HaveMore_empty_page :
  let f := server.getAlertFrequency [] "day" (24 * time.Hour) spec.noon in
  ~ (server.HaveMore f = true
     <-> server.Count f = Z.of_nat (List.length (@nil views.Alert))).
Proof.
  cbv zeta. intros [_ Hback]. specialize (Hback eq_refl). discriminate Hback.
Qed.

Lemma undated_alert_blocks_HaveMore_witness :
  let alerts := [spec.alertCreatedAt (spec.noon - time.Minute);
                 spec.hiddenAlert] in
  let f := server.getAlertFrequency alerts "day" (24 * time.Hour) spec.noon in
  server.Count f < Z.of_nat (List.length alerts)
  /\ server.HaveMore f = false.
Proof.
  cbv zeta.
  refine (proj2 (proj2 (undated_alert_blocks_HaveMore spec.noon
                          (24 * time.Hour)
                          [spec.alertCreatedAt (spec.noon - time.Minute);
                           spec.hiddenAlert] "day" _)) _).
  - vm_compute. reflexivity.
  - apply Exists_cons_tl, Exists_cons_hd. reflexivity.
Defined.

(** The example of the design: with alerts created one minute, ten
    minutes and two hours ago, the five-minute bucket counts 1, the hour
    bucket 2 and the day bucket 3, and the day bucket is saturated. *)
Example frequency_of_three_alerts :
  server.Count (server.getAlertFrequency spec.threeAlerts "5 minutes"
                  (5 * time.Minute) spec.noon) = 1
  /\ server.Count (server.getAlertFrequency spec.threeAlerts "hour"
                     time.Hour spec.noon) = 2
  /\ server.Count (server.getAlertFrequency spec.threeAlerts "day"
                     (24 * time.Hour) spec.noon) = 3
  /\ server.HaveMore (server.getAlertFrequency spec.threeAlerts "day"
                        (24 * time.Hour) spec.noon) = true.
Proof. repeat split. Qed.

(** * Further properties of the cache *)

Section LruMoreFacts.

Context {V : Type}.

Lemma lookup_removeElement_other (key other : string)
  (l : list (string * V)) :
  key <> other ->
  lru.lookup other (lru.removeElement key l) = lru.lookup other l.
Proof.
  intros Hne. induction l as [|[k v] l IH]; simpl; [reflexivity|].
  destruct (String.eqb_spec k key) as [->|Hk]; simpl.
  - destruct (String.eqb_spec key other) as [Heq|_]; [contradiction|exact IH].
  - destruct (String.eqb k other); [reflexivity|exact IH].
Qed.

Lemma lookup_touch (key other : string) (v : V) (l : list (string * V)) :
  lru.lookup key l = Some v ->
  lru.lookup other ((key, v) :: lru.removeElement key l) = lru.lookup other l.
Proof.
  intros Hl. simpl. destruct (String.eqb_spec key other) as [<-|Hne].
  - now symmetry.
  - now apply lookup_removeElement_other.
Qed.

Lemma length_removeElement_le (key : string) (l : list (string * V)) :
  (List.length (lru.removeElement key l) <= List.length l)%nat.
Proof.
  induction l as [|[k v] l IH]; simpl; [lia|].
  destruct (negb (String.eqb k key)); simpl; lia.
Qed.

Lemma length_removeElement_lt (key : string) (v : V)
  (l : list (string * V)) :
  lru.lookup key l = Some v ->
  (List.length (lru.removeElement key l) < List.length l)%nat.
Proof.
  induction l as [|[k v'] l IH]; simpl; [discriminate|].
  destruct (String.eqb k key); simpl.
  - intros _. pose proof (length_removeElement_le key l). lia.
  - intros Hl. specialize (IH Hl). lia.
Qed.

Lemma length_removelast (l : list (string * V)) :
  List.length (removelast l) = Nat.pred (List.length l).
Proof.
  induction l as [|x l IH]; [reflexivity|].
  destruct l as [|y l]; [reflexivity|].
  change (removelast (x :: y :: l)) with (x :: removelast (y :: l)).
  simpl List.length in *. rewrite IH. reflexivity.
Qed.

Lemma Add_new (key : string) (value : V) (c : lru.Cache V) :
  lru.lookup key (lru.ll c) = None ->
  lru.ll (lru.Add key value c)
  = if negb (lru.MaxEntries c =? 0)
       && (lru.MaxEntries c <? Z.of_nat (S (List.length (lru.ll c))))
    then removelast ((key, value) :: lru.ll c)
    else (key, value) :: lru.ll c.
Proof.
  intros Hl. unfold lru.Add. rewrite Hl. cbv zeta.
  unfold lru.Len. cbn [lru.ll lru.MaxEntries List.length].
  match goal with |- context [if ?b then _ else _] => destruct b end;
    reflexivity.
Qed.

Lemma lookup_Add_other (key other : string) (value : V) (c : lru.Cache V) :
  key <> other ->
  lru.MaxEntries c = 0 \/ lru.Len c < lru.MaxEntries c ->
  lru.lookup other (lru.ll (lru.Add key value c))
  = lru.lookup other (lru.ll c).
Proof.
  intros Hne Hroom.
  destruct (lru.lookup key (lru.ll c)) as [old|] eqn:Hl.
  - unfold lru.Add. rewrite Hl. simpl.
    destruct (String.eqb_spec key other); [contradiction|].
    now apply lookup_removeElement_other.
  - rewrite (Add_new _ _ _ Hl).
    match goal with |- context [if ?b then _ else _] => destruct b eqn:E end.
    + apply andb_true_iff in E as [E0 E1].
      apply negb_true_iff, Z.eqb_neq in E0. apply Z.ltb_lt in E1.
      unfold lru.Len in Hroom. lia.
    + simpl. destruct (String.eqb_spec key other); [contradiction|reflexivity].
Qed.

Lemma Len_Add (key : string) (value : V) (c : lru.Cache V) :
  0 < lru.MaxEntries c ->
  lru.Len c <= lru.MaxEntries c ->
  lru.Len (lru.Add key value c) <= lru.MaxEntries c.
Proof.
  intros Hpos Hlen.
  destruct (lru.lookup key (lru.ll c)) as [old|] eqn:Hl.
  - unfold lru.Add. rewrite Hl. unfold lru.Len in *. simpl.
    pose proof (length_removeElement_lt key old (lru.ll c) Hl). lia.
  - unfold lru.Len at 1. rewrite (Add_new _ _ _ Hl).
    match goal with |- context [if ?b then _ else _] => destruct b eqn:E end.
    + rewrite length_removelast. unfold lru.Len in Hlen. simpl. lia.
    + apply andb_false_iff in E as [E|E].
      * apply negb_false_iff, Z.eqb_eq in E. lia.
      * apply Z.ltb_ge in E. simpl List.length. lia.
Qed.

Lemma MaxEntries_Add (key : string) (value : V) (c : lru.Cache V) :
  lru.MaxEntries (lru.Add key value c) = lru.MaxEntries c.
Proof.
  unfold lru.Add. destruct (lru.lookup key (lru.ll c)); [reflexivity|].
  cbv zeta. match goal with |- context [if ?b then _ else _] => destruct b end;
    reflexivity.
Qed.

Lemma Get_shape (key : string) (c : lru.Cache V) :
  lru.MaxEntries (snd (lru.Get key c)) = lru.MaxEntries c
  /\ lru.Len (snd (lru.Get key c)) <= lru.Len c
  /\ forall other,
       lru.lookup other (lru.ll (snd (lru.Get key c)))
       = lru.lookup other (lru.ll c).
Proof.
  unfold lru.Get. destruct (lru.lookup key (lru.ll c)) as [v|] eqn:Hl.
  - cbn [snd lru.MaxEntries lru.ll]. split; [reflexivity|]. split.
    + unfold lru.Len. cbn [lru.ll List.length].
      pose proof (length_removeElement_lt key v (lru.ll c) Hl). lia.
    + intros other. now apply lookup_touch.
  - cbn. split; [reflexivity|]. split; [lia|reflexivity].
Qed.

End LruMoreFacts.

Section CacheMoreProperties.

Context {T : Type} `{cache.Codec T}.

(** What [Get] answers for a key depends on the entry under the key
    only. *)
Lemma answer_lookup (c1 c2 : cache.Cache) (key : string)
  (now : time.Time) :
  lru.lookup key (lru.ll c1) = lru.lookup key (lru.ll c2) ->
  extra.answer (cache.Cache_Get (T := T) c1 key now)
  = extra.answer (cache.Cache_Get (T := T) c2 key now).
Proof.
  intros Hl. unfold cache.Cache_Get, lru.Get. rewrite Hl.
  destruct (lru.lookup key (lru.ll c2)) as [[e|]|]; try reflexivity.
  destruct (0 <? time.Since now (cache.Expires e)); [reflexivity|].
  destruct (cache.gzip_NewReader (cache.Bits e)); [|reflexivity].
  destruct (cache.gob_Decode (cache.Bits e)); reflexivity.
Qed.

Lemma Get_state (c c1 : cache.Cache) (key : string) (now : time.Time)
  (res : cache.GetResult T) :
  cache.Cache_Get c key now = Returned (res, c1) ->
  c1 = snd (lru.Get key c)
  \/ (c1 = lru.Remove key (snd (lru.Get key c))
      /\ res = cache.failed cache.expired).
Proof.
  unfold cache.Cache_Get.
  destruct (lru.Get key c) as [[[e|]|] c0]; cbn [snd].
  - destruct (0 <? time.Since now (cache.Expires e)).
    + intros [= <- <-]. now right.
    + destruct (cache.gzip_NewReader (cache.Bits e)); [|discriminate].
      destruct (cache.gob_Decode (cache.Bits e)); intros [= <- <-]; now left.
  - intros [= <- <-]. now left.
  - intros [= <- <-]. now left.
Qed.

(** X1. [Get] only reads: apart from dropping the entry it finds
    expired, it leaves every key with the answer it had before, at every
    later clock reading, and it never makes the cache larger. *)
Theorem Get_leaves_answers (c c1 : cache.Cache) (key : string)
  (now : time.Time) (res : cache.GetResult T) :
  cache.Cache_Get c key now = Returned (res, c1) ->
  lru.MaxEntries c1 = lru.MaxEntries c
  /\ lru.Len c1 <= lru.Len c
  /\ forall other later,
       other <> key \/ res <> cache.failed cache.expired ->
       extra.answer (cache.Cache_Get (T := T) c1 other later)
       = extra.answer (cache.Cache_Get (T := T) c other later).
Proof.
  intros Hget. destruct (Get_shape key c) as (Hmax & Hlen & Hlook).
  destruct (Get_state _ _ _ _ _ Hget) as [->|[-> ->]].
  - split; [exact Hmax|]. split; [exact Hlen|].
    intros other later _. apply answer_lookup, Hlook.
  - split; [exact Hmax|]. split.
    + unfold lru.Len, lru.Remove in *. cbn [lru.ll].
      pose proof (length_removeElement_le key (lru.ll (snd (lru.Get key c)))).
      lia.
    + intros other later [Hne|Hne]; [|now contradiction Hne].
      apply answer_lookup. unfold lru.Remove. cbn [lru.ll].
      rewrite lookup_removeElement_other by congruence. apply Hlook.
Qed.

(** X2. While the cache has room, or has no limit, a [Set] under one
    key does not change what [Get] answers for any other key. *)
Theorem Set_leaves_other_keys (c c' : cache.Cache) (key other : string)
  (v : T) (d : time.Duration) (now : time.Time) :
  key <> other ->
  lru.MaxEntries c = 0 \/ lru.Len c < lru.MaxEntries c ->
  cache.Cache_Set c key v d now = Returned c' ->
  forall later,
    extra.answer (cache.Cache_Get (T := T) c' other later)
    = extra.answer (cache.Cache_Get (T := T) c other later).
Proof.
  intros Hne Hroom Hset later.
  apply Set_returned in Hset as (buf & _ & ->).
  apply answer_lookup. now apply lookup_Add_other.
Qed.

(** X3. A cache with a positive limit never holds more entries than
    the limit: [Set] keeps the number of entries within [MaxEntries]. *)
Theorem Set_within_capacity (c c' : cache.Cache) (key : string)
  (v : T) (d : time.Duration) (now : time.Time) :
  0 < lru.MaxEntries c ->
  lru.Len c <= lru.MaxEntries c ->
  cache.Cache_Set c key v d now = Returned c' ->
  lru.MaxEntries c' = lru.MaxEntries c
  /\ lru.Len c' <= lru.MaxEntries c'.
Proof.
  intros Hpos Hlen Hset.
  apply Set_returned in Hset as (buf & _ & ->).
  rewrite MaxEntries_Add. split; [reflexivity|]. now apply Len_Add.
Qed.

(** X4. In a full cache, a [Set] under a new key drops the entry at the
    back of the list, the least recently used one, and keeps the others
    in their order behind the new entry. *)
Theorem Set_evicts_oldest (c c' : cache.Cache) (key : string) (v : T)
  (d : time.Duration) (now : time.Time)
  (newer : list (string * cache.cacheVal)) (oldest : string * cache.cacheVal) :
  0 < lru.MaxEntries c ->
  lru.Len c = lru.MaxEntries c ->
  lru.ll c = newer ++ [oldest] ->
  lru.lookup key (lru.ll c) = None ->
  cache.Cache_Set c key v d now = Returned c' ->
  exists e,
    lru.ll c' = (key, cache.expiringBitsPtr e) :: newer
    /\ cache.Set_ e = now
    /\ cache.Expires e = now + d.
Proof.
  intros Hpos Hfull Hll Hnew Hset.
  apply Set_returned in Hset as (buf & _ & ->).
  exists {| cache.Set_ := now; cache.Expires := now + d; cache.Bits := buf |}.
  split; [|split; reflexivity].
  rewrite (Add_new _ _ _ Hnew).
  replace (negb (lru.MaxEntries c =? 0)
           && (lru.MaxEntries c <? Z.of_nat (S (List.length (lru.ll c)))))
    with true.
  - rewrite Hll. rewrite app_comm_cons. now rewrite removelast_last.
  - symmetry. apply andb_true_iff. split.
    + apply negb_true_iff, Z.eqb_neq. lia.
    + apply Z.ltb_lt. unfold lru.Len in Hfull. lia.
Qed.

(** X5. With room for at least two entries, or no limit, the key that a
    [Get] has just found is not the one that the next [Set] under another
    key pushes out: [Get] answers for it as before. *)
Theorem Get_protects_from_eviction (c c1 c2 : cache.Cache)
  (key other : string) (v : T) (d : time.Duration)
  (now now' : time.Time) (res : cache.GetResult T) :
  lru.MaxEntries c = 0 \/ 2 <= lru.MaxEntries c ->
  key <> other ->
  cache.Cache_Get c key now = Returned (res, c1) ->
  cache.err res = None ->
  cache.Cache_Set c1 other v d now' = Returned c2 ->
  forall later,
    extra.answer (cache.Cache_Get (T := T) c2 key later)
    = extra.answer (cache.Cache_Get (T := T) c1 key later).
Proof.
  intros Hcap Hne Hget Hok Hset later.
  apply Set_returned in Hset as (buf & _ & ->).
  apply answer_lookup.
  assert (Hc1 : exists cv rest,
             lru.ll c1 = (key, cv) :: rest
             /\ lru.MaxEntries c1 = lru.MaxEntries c).
  { revert Hget. unfold cache.Cache_Get, lru.Get.
    destruct (lru.lookup key (lru.ll c)) as [[e|]|].
    - destruct (0 <? time.Since now (cache.Expires e)).
      + intros [= <- <-]. discriminate Hok.
      + destruct (cache.gzip_NewReader (cache.Bits e)); [|discriminate].
        destruct (cache.gob_Decode (cache.Bits e)); intros [= <- <-].
        * eexists. eexists. split; reflexivity.
        * discriminate Hok.
    - intros [= <- <-]. discriminate Hok.
    - intros [= <- <-]. discriminate Hok. }
  destruct Hc1 as (cv & rest & Hll & Hmax).
  destruct (lru.lookup other (lru.ll c1)) as [old|] eqn:Hl.
  - unfold lru.Add. rewrite Hl. cbn [lru.ll lru.lookup].
    destruct (String.eqb_spec other key); [congruence|].
    apply lookup_removeElement_other. congruence.
  - rewrite (Add_new _ _ _ Hl). rewrite Hll, Hmax.
    match goal with |- context [if ?b then _ else _] => destruct b eqn:E end.
    + apply andb_true_iff in E as [E0 E1].
      apply negb_true_iff, Z.eqb_neq in E0. apply Z.ltb_lt in E1.
      destruct rest as [|x rest]; [cbn in E1; lia|].
      cbn. destruct (String.eqb_spec other key); [congruence|].
      now rewrite String.eqb_refl.
    + cbn. destruct (String.eqb_spec other key); [congruence|reflexivity].
Qed.

(** X6. When the stored bytes do not decode into the requested value,
    [Get] returns the decoding error with the zero time, and the entry
    stays in the cache. *)
Theorem Get_decode_error_keeps_entry (c : cache.Cache) (key : string)
  (e : cache.expiringBits) (now : time.Time) (derr : error) :
  lru.lookup key (lru.ll c) = Some (cache.expiringBitsPtr e) ->
  now <= cache.Expires e ->
  cache.gzip_NewReader (cache.Bits e) = true ->
  cache.gob_Decode (T := T) (cache.Bits e) = inr derr ->
  exists c1,
    cache.Cache_Get (T := T) c key now = Returned (cache.failed derr, c1)
    /\ lru.lookup key (lru.ll c1) = Some (cache.expiringBitsPtr e).
Proof.
  intros Hl Hnow Hgz Hdec. unfold cache.Cache_Get.
  destruct (Get_hit _ _ _ Hl) as (c1 & -> & Hl1).
  replace (0 <? time.Since now (cache.Expires e)) with false.
  - rewrite Hgz, Hdec. now exists c1.
  - symmetry. apply Z.ltb_ge. unfold time.Since.
    destruct (Z.lt_ge_cases 0 (time.Sub now (cache.Expires e))) as [Hp|Hn];
      [|exact Hn].
    apply (proj1 (Sub_pos _ _)) in Hp. lia.
Qed.

(** X7. A cache made with a negative size stores nothing: [Set] leaves
    it as it was made, and a [Get] of the key just set reports that the
    key was not found. *)
Theorem negative_size_stores_nothing (size : Z) (c' : cache.Cache)
  (key : string) (v : T) (d : time.Duration) (now later : time.Time) :
  size < 0 ->
  cache.Cache_Set (cache.NewCache size) key v d now = Returned c' ->
  c' = cache.NewCache size
  /\ cache.Cache_Get (T := T) c' key later
     = Returned (cache.failed cache.errNotFound, c').
Proof.
  intros Hneg Hset. apply Set_returned in Hset as (buf & _ & ->).
  assert (Hsame : forall cv, lru.Add key cv (cache.NewCache size)
                             = cache.NewCache size).
  { intros cv. unfold lru.Add, cache.NewCache, lru.New, lru.Len.
    cbn [lru.ll lru.lookup lru.MaxEntries List.length].
    replace (negb (size =? 0) && (size <? Z.of_nat 1)) with true.
    - reflexivity.
    - symmetry. apply andb_true_iff. split.
      + apply negb_true_iff, Z.eqb_neq. lia.
      + apply Z.ltb_lt. lia. }
  rewrite Hsame. split; [reflexivity|]. now apply Get_absent.
Qed.

End CacheMoreProperties.

Lemma Get_leaves_answers_witness :
  exists res c1,
    cache.Cache_Get (H := spec.plainCodec) extra.twoEntries "a" 1005
    = Returned (res, c1)
    /\ lru.Len c1 <= lru.Len extra.twoEntries
    /\ extra.answer (cache.Cache_Get (H := spec.plainCodec) c1 "b" 1010)
       = extra.answer
           (cache.Cache_Get (H := spec.plainCodec) extra.twoEntries "b" 1010).
Proof.
  eexists. eexists. split; [reflexivity|].
  match goal with |- lru.Len ?c1 <= _ /\ _ =>
    pose proof (Get_leaves_answers (H := spec.plainCodec) extra.twoEntries c1
                  "a" 1005 _ eq_refl) as (_ & Hlen & Hans)
  end.
  split; [exact Hlen|]. apply Hans. left. discriminate.
Defined.

Lemma Set_leaves_other_keys_witness :
  exists c',
    cache.Cache_Set (H := spec.plainCodec) extra.oneEntry "b" "y"%string 30 1001
    = Returned c'
    /\ extra.answer (cache.Cache_Get (H := spec.plainCodec) c' "a" 1010)
       = extra.answer
           (cache.Cache_Get (H := spec.plainCodec) extra.oneEntry "a" 1010).
Proof.
  eexists. split; [reflexivity|].
  apply (Set_leaves_other_keys (H := spec.plainCodec) extra.oneEntry _
           "b" "a" "y"%string 30 1001).
  - discriminate.
  - right. vm_compute. reflexivity.
  - reflexivity.
Defined.

Lemma Set_within_capacity_witness :
  exists c',
    cache.Cache_Set (H := spec.plainCodec) extra.twoEntries "c" "z"%string 30 1002
    = Returned c'
    /\ lru.MaxEntries c' = 2
    /\ lru.Len c' <= lru.MaxEntries c'.
Proof.
  eexists. split; [reflexivity|].
  apply (Set_within_capacity (H := spec.plainCodec) extra.twoEntries _
           "c" "z"%string 30 1002).
  - reflexivity.
  - vm_compute. discriminate.
  - reflexivity.
Defined.

Lemma Set_evicts_oldest_witness :
  exists c' e,
    cache.Cache_Set (H := spec.plainCodec) extra.twoEntries "c" "z"%string 30 1002
    = Returned c'
    /\ lru.ll c' = [("c"%string, cache.expiringBitsPtr e);
                    ("b"%string, extra.entry 1001 1031 "y")]
    /\ cache.Set_ e = 1002
    /\ cache.Expires e = 1002 + 30.
Proof.
  eexists.
  match goal with |- exists e, ?set = Returned ?c' /\ _ =>
    destruct (Set_evicts_oldest (H := spec.plainCodec) extra.twoEntries c'
                "c" "z"%string 30 1002
                [("b"%string, extra.entry 1001 1031 "y")]
                ("a"%string, extra.entry 1000 1030 "x"))
      as (e & Hll & Hset & Hexp)
  end.
  - reflexivity.
  - reflexivity.
  - reflexivity.
  - reflexivity.
  - reflexivity.
  - exists e. split; [reflexivity|]. split; [exact Hll|]. now split.
Defined.

Lemma Get_protects_from_eviction_witness :
  exists res c1 c2,
    cache.Cache_Get (H := spec.plainCodec) extra.twoEntries "a" 1005
    = Returned (res, c1)
    /\ cache.Cache_Set (H := spec.plainCodec) c1 "c" "z"%string 30 1006
       = Returned c2
    /\ extra.answer (cache.Cache_Get (H := spec.plainCodec) c2 "a" 1010)
       = extra.answer (cache.Cache_Get (H := spec.plainCodec) c1 "a" 1010).
Proof.
  eexists. eexists. eexists. split; [reflexivity|]. split; [reflexivity|].
  eapply (Get_protects_from_eviction (H := spec.plainCodec) extra.twoEntries
            _ _ "a" "c" "z"%string 30 1005 1006).
  - right. vm_compute. discriminate.
  - discriminate.
  - reflexivity.
  - reflexivity.
  - reflexivity.
Defined.

Lemma Get_decode_error_keeps_entry_witness :
  exists c1,
    cache.Cache_Get (H := extra.brokenCodec) extra.oneEntry "a" 1005
    = Returned (cache.failed (errorString "gob: type mismatch"), c1)
    /\ lru.lookup "a" (lru.ll c1) = Some (extra.entry 1000 1030 "x").
Proof.
  apply (Get_decode_error_keeps_entry (H := extra.brokenCodec) extra.oneEntry
           "a" {| cache.Set_ := 1000; cache.Expires := 1030;
                  cache.Bits := list_byte_of_string "x" |} 1005).
  - reflexivity.
  - vm_compute. discriminate.
  - reflexivity.
  - reflexivity.
Defined.

Lemma negative_size_stores_nothing_witness :
  exists c',
    cache.Cache_Set (H := spec.plainCodec) (cache.NewCache (-1))
      "a" "x"%string 30 1000
    = Returned c'
    /\ c' = cache.NewCache (-1)
    /\ cache.Cache_Get (H := spec.plainCodec) c' "a" 1001
       = Returned (cache.failed cache.errNotFound, c').
Proof.
  eexists. split; [reflexivity|].
  apply (negative_size_stores_nothing (H := spec.plainCodec) (-1) _
           "a" "x"%string 30 1000 1001).
  - reflexivity.
  - reflexivity.
Defined.

(** * Further properties of the media client *)

Section MediaMoreProperties.

Context `{config.Errors} `{services.Sealer} `{url.Lib}.

Lemma opaqueLoop_inl (vc : views.Client) (rand : nat -> services.Nonce)
  (urls : list url.URL) :
  forall first opaqueImages,
    views.opaqueLoop vc rand urls first = inl opaqueImages ->
    List.length opaqueImages = List.length urls
    /\ forall i upstream,
         nth_error urls i = Some upstream ->
         exists opaqueURL,
           nth_error opaqueImages i = Some opaqueURL
           /\ url.Parse
                ("/images/"
                 ++ services.Opaque (url.URL_String upstream)
                      (views.secretKey vc) (rand (first + i)%nat))
              = inl opaqueURL.
Proof.
  induction urls as [|u rest IH]; intros first out; cbn [views.opaqueLoop].
  - intros [= <-]. split; [reflexivity|]. intros [|i] upstream; discriminate.
  - destruct (url.Parse _) as [o|err] eqn:Ho; [|discriminate].
    destruct (views.opaqueLoop vc rand rest (S first)) as [os|err] eqn:Hrest;
      [|discriminate].
    intros [= <-]. destruct (IH _ _ Hrest) as (Hlen & Hnth). split.
    + simpl. now f_equal.
    + intros [|i] upstream; cbn [nth_error].
      * intros [= <-]. exists o. split; [reflexivity|].
        now rewrite Nat.add_0_r.
      * intros Hi. destruct (Hnth i upstream Hi) as (o' & Ho' & Hp).
        exists o'. split; [exact Ho'|].
        now replace (first + S i)%nat with (S first + i)%nat by lia.
Qed.

Lemma opaqueLoop_inr (vc : views.Client) (rand : nat -> services.Nonce)
  (urls : list url.URL) :
  forall first err,
    views.opaqueLoop vc rand urls first = inr err
    <-> exists i upstream,
          nth_error urls i = Some upstream
          /\ url.Parse
               ("/images/"
                ++ services.Opaque (url.URL_String upstream)
                     (views.secretKey vc) (rand (first + i)%nat))
             = inr err
          /\ forall j earlier,
               (j < i)%nat ->
               nth_error urls j = Some earlier ->
               exists opaqueURL,
                 url.Parse
                   ("/images/"
                    ++ services.Opaque (url.URL_String earlier)
                         (views.secretKey vc) (rand (first + j)%nat))
                 = inl opaqueURL.
Proof.
  induction urls as [|u rest IH]; intros first err; cbn [views.opaqueLoop].
  - split; [discriminate|]. intros ([|i] & upstream & Hi & _); discriminate.
  - destruct (url.Parse _) as [o|perr] eqn:Ho.
    + destruct (views.opaqueLoop vc rand rest (S first)) as [os|lerr] eqn:Hrest.
      * split; [discriminate|].
        intros (i & upstream & Hi & Hp & Hbefore).
        destruct i as [|i].
        -- cbn in Hi. injection Hi as <-. rewrite Nat.add_0_r in Hp. congruence.
        -- assert (Hbad : views.opaqueLoop vc rand rest (S first) = inr err).
           { apply IH. exists i, upstream. split; [exact Hi|]. split.
             - now replace (S first + i)%nat with (first + S i)%nat by lia.
             - intros j earlier Hj Hnth.
               replace (S first + j)%nat with (first + S j)%nat by lia.
               apply (Hbefore (S j) earlier); [lia|exact Hnth]. }
           congruence.
      * split.
        -- intros [= <-]. apply IH in Hrest as (i & upstream & Hi & Hp & Hbefore).
           exists (S i), upstream. split; [exact Hi|]. split.
           ++ now replace (first + S i)%nat with (S first + i)%nat by lia.
           ++ intros [|j] earlier Hj; cbn [nth_error].
              ** intros [= <-]. exists o. now rewrite Nat.add_0_r.
              ** intros Hnth.
                 replace (first + S j)%nat with (S first + j)%nat by lia.
                 apply (Hbefore j earlier); [lia|exact Hnth].
        -- intros (i & upstream & Hi & Hp & Hbefore). f_equal.
           destruct i as [|i].
           ++ cbn in Hi. injection Hi as <-. rewrite Nat.add_0_r in Hp.
              congruence.
           ++ assert (Hbad : views.opaqueLoop vc rand rest (S first) = inr err).
              { apply IH. exists i, upstream. split; [exact Hi|]. split.
                - now replace (S first + i)%nat with (first + S i)%nat by lia.
                - intros j earlier Hj Hnth.
                  replace (S first + j)%nat with (first + S j)%nat by lia.
                  apply (Hbefore (S j) earlier); [lia|exact Hnth]. }
              congruence.
    + split.
      * intros [= <-]. exists 0%nat, u. split; [reflexivity|]. split.
        -- now rewrite Nat.add_0_r.
        -- intros j earlier Hj. lia.
      * intros (i & upstream & Hi & Hp & Hbefore). f_equal.
        destruct i as [|i].
        -- cbn in Hi. injection Hi as <-. rewrite Nat.add_0_r in Hp. congruence.
        -- destruct (Hbefore 0%nat u) as (o & Hok); [lia|reflexivity|].
           rewrite Nat.add_0_r in Hok. congruence.
Qed.

(** X8. Whenever [GetMediaURLs] succeeds, the user may view media, the
    upstream answered with a list, and the result follows that list
    position by position: the URL at position [i] is the parse of
    [/images/] followed by the upstream URL at [i] sealed with the
    [i]-th nonce drawn. *)
Theorem GetMediaURLs_in_order (vc : views.Client)
  (rand : nat -> services.Nonce) (u : config.User) (sid : string)
  (opaqueImages : list url.URL) :
  fst (views.GetMediaURLs vc rand u sid) = inl opaqueImages ->
  config.CanViewMedia u = true
  /\ exists urls,
       views.Messages_GetMediaURLs vc sid views.mediaUrlsFilters = inl urls
       /\ List.length opaqueImages = List.length urls
       /\ forall i upstream,
            nth_error urls i = Some upstream ->
            exists opaqueURL,
              nth_error opaqueImages i = Some opaqueURL
              /\ url.Parse
                   ("/images/"
                    ++ services.Opaque (url.URL_String upstream)
                         (views.secretKey vc) (rand i))
                 = inl opaqueURL.
Proof.
  unfold views.GetMediaURLs.
  destruct (config.CanViewMedia u); cbn [Bool.eqb]; [|discriminate].
  destruct (views.Messages_GetMediaURLs vc sid views.mediaUrlsFilters)
    as [urls|err]; [|discriminate].
  cbn [fst]. intros Hloop. split; [reflexivity|]. exists urls.
  split; [reflexivity|]. now apply opaqueLoop_inl in Hloop.
Qed.

(** X9. [GetMediaURLs] fails in three ways only, and returns no partial
    list: with [config.PermissionDenied] when the user may not view
    media; with the upstream's own error; or with the error of
    [url.Parse] on the first sealed path that does not parse. *)
Theorem GetMediaURLs_errors (vc : views.Client)
  (rand : nat -> services.Nonce) (u : config.User) (sid : string)
  (err : error) :
  fst (views.GetMediaURLs vc rand u sid) = inr err
  <-> (config.CanViewMedia u = false /\ err = config.PermissionDenied)
      \/ (config.CanViewMedia u = true
          /\ views.Messages_GetMediaURLs vc sid views.mediaUrlsFilters
             = inr err)
      \/ (config.CanViewMedia u = true
          /\ exists urls i upstream,
               views.Messages_GetMediaURLs vc sid views.mediaUrlsFilters
               = inl urls
               /\ nth_error urls i = Some upstream
               /\ url.Parse
                    ("/images/"
                     ++ services.Opaque (url.URL_String upstream)
                          (views.secretKey vc) (rand i))
                  = inr err
               /\ forall j earlier,
                    (j < i)%nat ->
                    nth_error urls j = Some earlier ->
                    exists opaqueURL,
                      url.Parse
                        ("/images/"
                         ++ services.Opaque (url.URL_String earlier)
                              (views.secretKey vc) (rand j))
                      = inl opaqueURL).
Proof.
  unfold views.GetMediaURLs.
  destruct (config.CanViewMedia u); cbn [Bool.eqb].
  - destruct (views.Messages_GetMediaURLs vc sid views.mediaUrlsFilters)
      as [urls|uerr]; cbn [fst].
    + rewrite (opaqueLoop_inr vc rand urls 0 err). split.
      * intros (i & upstream & Hi & Hp & Hbefore). right. right.
        split; [reflexivity|]. exists urls, i, upstream. now repeat split.
      * intros [[Hf _]|[[_ Hf]|[_ (urls' & i & upstream & [= <-] & Hrest)]]];
          [discriminate| discriminate|].
        exists i, upstream. exact Hrest.
    + split.
      * intros [= <-]. right. left. now split.
      * intros [[Hf _]|[[_ Hf]|[_ (urls' & i & upstream & Hf & _)]]];
          [discriminate| exact Hf | discriminate].
  - cbn [fst]. split.
    + intros [= <-]. left. now split.
    + intros [[_ ->]|[[Hf _]|[Hf _]]]; [reflexivity|discriminate..].
Qed.

End MediaMoreProperties.

Lemma GetMediaURLs_in_order_witness :
  exists opaqueImages,
    fst (views.GetMediaURLs (H := spec.permissionDenied)
           (H0 := spec.prefixSealer) (H1 := spec.pathLib)
           spec.twoMedia (fun _ => []) spec.viewer "MM1")
    = inl opaqueImages
    /\ List.length opaqueImages = 2%nat.
Proof.
  eexists. split; [reflexivity|].
  match goal with |- List.length ?out = _ =>
    destruct (GetMediaURLs_in_order (H := spec.permissionDenied)
                (H0 := spec.prefixSealer) (H1 := spec.pathLib)
                spec.twoMedia (fun _ => []) spec.viewer "MM1" out eq_refl)
      as (_ & urls & Hup & Hlen & _)
  end.
  injection Hup as <-. exact Hlen.
Defined.

(** * Further properties of the alert frequency buckets *)

Section FrequencyMoreProperties.

Variable now : time.Time.

Lemma filter_length_mono {A} (f g : A -> bool) (l : list A) :
  (forall a, f a = true -> g a = true) ->
  (List.length (filter f l) <= List.length (filter g l))%nat.
Proof.
  intros Himp. induction l as [|a l IH]; simpl; [lia|].
  destruct (f a) eqn:Hf.
  - rewrite (Himp a Hf). simpl. lia.
  - destruct (g a); simpl; lia.
Qed.

Lemma counted_mono (since1 since2 : time.Duration) (a : views.Alert) :
  since1 <= since2 ->
  spec.counted now since1 a = true -> spec.counted now since2 a = true.
Proof.
  intros Hle. unfold spec.counted.
  destruct (views.DateCreated a) as [createdAt [e|]]; [discriminate|].
  rewrite !andb_true_iff, !Z.ltb_lt. intros [Hv Hlt]. split; [exact Hv|lia].
Qed.

Lemma counted_inWindow (since : time.Duration) (a : views.Alert) :
  time.minDuration < since <= time.maxDuration ->
  spec.counted now since a = extra.inWindow now since a.
Proof.
  intros [Hlo Hhi]. unfold spec.counted, extra.inWindow.
  destruct (views.DateCreated a) as [createdAt [e|]]; [reflexivity|].
  f_equal. unfold time.Sub.
  destruct (Z.ltb_spec (now - types.Time createdAt) time.minDuration).
  - destruct (Z.ltb_spec time.minDuration since);
      destruct (Z.ltb_spec (now - types.Time createdAt) since); lia.
  - destruct (Z.ltb_spec time.maxDuration (now - types.Time createdAt)).
    + destruct (Z.ltb_spec time.maxDuration since);
        destruct (Z.ltb_spec (now - types.Time createdAt) since); lia.
    + reflexivity.
Qed.

(** X10. The count of a bucket lies between zero and the number of
    alerts examined. *)
Theorem Count_bounds (alerts : list views.Alert) (name : string)
  (since : time.Duration) :
  Z.of_nat (List.length alerts) < 2 ^ 63 ->
  0 <= server.Count (server.getAlertFrequency alerts name since now)
    <= Z.of_nat (List.length alerts).
Proof.
  intros Hlen. rewrite (Count_counted now since alerts name Hlen).
  pose proof (filter_length_le' (spec.counted now since) alerts). lia.
Qed.

(** X11. A wider window never counts fewer alerts: at the same clock
    reading, the count grows with the window, and a bucket that is
    saturated stays so for every wider window. *)
Theorem wider_window_counts_more (alerts : list views.Alert)
  (name1 name2 : string) (since1 since2 : time.Duration) :
  Z.of_nat (List.length alerts) < 2 ^ 63 ->
  since1 <= since2 ->
  let narrow := server.getAlertFrequency alerts name1 since1 now in
  let wide := server.getAlertFrequency alerts name2 since2 now in
  server.Count narrow <= server.Count wide
  /\ (server.HaveMore narrow = true -> server.HaveMore wide = true).
Proof.
  intros Hlen Hle narrow wide.
  assert (Hcount : server.Count narrow <= server.Count wide).
  { unfold narrow, wide. rewrite !Count_counted by exact Hlen.
    apply inj_le, filter_length_mono. intros a. now apply counted_mono. }
  split; [exact Hcount|].
  intros Hmore.
  apply (HaveMore_spec now since1 alerts name1 Hlen) in Hmore.
  apply (HaveMore_spec now since2 alerts name2 Hlen).
  fold narrow in Hmore. fold wide.
  pose proof (Count_counted now since2 alerts name2 Hlen) as Hb.
  fold wide in Hb.
  pose proof (filter_length_le' (spec.counted now since2) alerts). lia.
Qed.

(** X12. The bucket does not depend on the order of the alerts: two
    pages with the same alerts in different orders give the same
    bucket. *)
Theorem order_does_not_matter (alerts alerts' : list views.Alert)
  (name : string) (since : time.Duration) :
  Z.of_nat (List.length alerts) < 2 ^ 63 ->
  Permutation alerts alerts' ->
  server.getAlertFrequency alerts name since now
  = server.getAlertFrequency alerts' name since now.
Proof.
  intros Hlen Hperm.
  assert (Hlen' : Z.of_nat (List.length alerts') < 2 ^ 63)
    by now rewrite <- (Permutation_length Hperm).
  pose proof (Count_counted now since alerts name Hlen) as Hc.
  pose proof (Count_counted now since alerts' name Hlen') as Hc'.
  unfold server.getAlertFrequency in *. cbn [server.Count] in Hc, Hc'.
  rewrite Hc, Hc'.
  assert (Hf : List.length (filter (spec.counted now since) alerts)
               = List.length (filter (spec.counted now since) alerts')).
  { clear -Hperm. induction Hperm; simpl.
    - reflexivity.
    - destruct (spec.counted now since x); simpl; congruence.
    - destruct (spec.counted now since x), (spec.counted now since y);
        reflexivity.
    - congruence. }
  now rewrite Hf, (Permutation_length Hperm).
Qed.

(** X13. For a window that a [Duration] can hold, the minimum apart,
    the clamping of [Time.Sub] makes no difference: the count is the
    number of alerts that are dated, valid and created less than [since]
    before [now] by plain arithmetic.  Alerts dated in the future
    therefore count in every positive window, and an alert exactly
    [since] old does not count. *)
Theorem Count_by_plain_arithmetic (alerts : list views.Alert)
  (name : string) (since : time.Duration) :
  Z.of_nat (List.length alerts) < 2 ^ 63 ->
  time.minDuration < since <= time.maxDuration ->
  server.Count (server.getAlertFrequency alerts name since now)
  = Z.of_nat (List.length (filter (extra.inWindow now since) alerts)).
Proof.
  intros Hlen Hsince. rewrite (Count_counted now since alerts name Hlen).
  do 2 f_equal. apply filter_ext. intros a. now apply counted_inWindow.
Qed.

End FrequencyMoreProperties.

Lemma Count_bounds_witness :
  0 <= server.Count
         (server.getAlertFrequency spec.threeAlerts "hour" time.Hour spec.noon)
    <= 3.
Proof.
  apply (Count_bounds spec.noon spec.threeAlerts "hour" time.Hour).
  vm_compute. reflexivity.
Defined.

Lemma wider_window_counts_more_witness :
  server.Count
    (server.getAlertFrequency spec.threeAlerts "5 minutes" (5 * time.Minute)
       spec.noon)
  <= server.Count
       (server.getAlertFrequency spec.threeAlerts "hour" time.Hour spec.noon).
Proof.
  refine (proj1 (wider_window_counts_more spec.noon spec.threeAlerts
                   "5 minutes" "hour" (5 * time.Minute) time.Hour _ _)).
  - vm_compute. reflexivity.
  - vm_compute. discriminate.
Defined.

Lemma order_does_not_matter_witness :
  server.getAlertFrequency
    [spec.alertCreatedAt (spec.noon - time.Minute); spec.hiddenAlert]
    "hour" time.Hour spec.noon
  = server.getAlertFrequency
      [spec.hiddenAlert; spec.alertCreatedAt (spec.noon - time.Minute)]
      "hour" time.Hour spec.noon.
Proof.
  apply (order_does_not_matter spec.noon).
  - vm_compute. reflexivity.
  - apply perm_swap.
Defined.

Lemma Count_by_plain_arithmetic_witness :
  server.Count
    (server.getAlertFrequency
       [spec.alertCreatedAt (spec.noon + time.Hour);
        spec.alertCreatedAt (spec.noon - time.Hour)]
       "hour" time.Hour spec.noon)
  = 1.
Proof.
  apply (Count_by_plain_arithmetic spec.noon
           [spec.alertCreatedAt (spec.noon + time.Hour);
            spec.alertCreatedAt (spec.noon - time.Hour)]
           "hour" time.Hour).
  - vm_compute. reflexivity.
  - vm_compute. split; [reflexivity|discriminate].
Defined.

(** * Further properties of the alert list handler *)

Section ServeMoreProperties.

Variables (env : server.Env) (s : server.alertListServer)
  (r : server.Request).

Lemma renderError_shape (code : Z) (query : url.Values) (e : error)
  (w : server.World) :
  exists data,
    server.renderError env s r code query (Some e) w
    = (tt, {| server.ticks := server.ticks w;
              server.trace :=
                server.trace w
                ++ spec.contentType :: server.WriteHeader code
                   :: server.render_base data :: extra.renderTail env data |})
    /\ server.Page (server.Data data) = views.newAlertPage
    /\ server.Query (server.Data data) = query
    /\ server.Freq (server.Data data) = []
    /\ server.Err (server.Data data)
       = strings.Replace1 (Error e) "twilio: " "".
Proof.
  eexists. split.
  - unfold server.renderError, server.bind, server.emit.
    rewrite renderBase_run. cbn [server.ticks server.trace].
    rewrite <- !app_assoc. reflexivity.
  - repeat split.
Qed.

Lemma serveResult_failure (u : config.User)
  (startTime endTime start : time.Time) (next : string) (query : url.Values)
  (err : error) (w : server.World) :
  err <> NoMoreResults ->
  exists l,
    server.serveResult env s r u startTime endTime start next query (inr err) w
    = (tt, {| server.ticks := server.ticks w;
              server.trace := server.trace w ++ l |})
    /\ extra.failure err l.
Proof.
  intros Hne. unfold server.serveResult, extra.failure, extra.statusOf.
  destruct err as [|code title|text]; [now contradiction Hne| |].
  - destruct (code =? 400).
    + destruct (renderError_shape server.StatusBadRequest query
                  (restError code title) w) as (data & -> & Hp & _ & _ & He).
      eexists. split; [reflexivity|]. split; [|split].
      * unfold extra.renderTail. destruct (server.render env data); reflexivity.
      * reflexivity.
      * exists data. split; [reflexivity|]. now split.
    + destruct (code =? 404); eexists; (split; [reflexivity|]);
        repeat split.
  - eexists. split; [reflexivity|]. repeat split.
Qed.

Lemma serveResult_served (u : config.User)
  (startTime endTime start : time.Time) (next : string) (query : url.Values)
  (page : views.AlertPage) (call : server.Event) :
  exists data,
    server.trace
      (snd (server.serveResult env s r u startTime endTime start next query
              (inl page) {| server.ticks := 1; server.trace := [call] |}))
    = call :: extra.prefetch u startTime endTime page
      ++ spec.contentType :: server.WriteHeader 200
         :: server.render_base data :: extra.renderTail env data
    /\ server.Page (server.Data data) = page
    /\ server.Query (server.Data data) = query
    /\ server.Err (server.Data data) = ""%string
    /\ server.EncryptedNextPage (server.Data data)
       = server.getEncryptedPage env (views.NextPageURI page)
           (server.secretKey s)
    /\ server.EncryptedPreviousPage (server.Data data)
       = server.getEncryptedPage env (views.PreviousPageURI page)
           (server.secretKey s)
    /\ server.Freq (server.Data data)
       = (if String.eqb next ""
          then extra.buckets env (views.Alerts page) 2 else []).
Proof.
  unfold server.serveResult, server.bind, server.emit, server.ret, server.Now,
    extra.prefetch, extra.renderTail.
  destruct (types.NullString.Valid (views.NextPageURI page));
    destruct (String.eqb next "");
    cbn [server.ticks server.trace];
    rewrite renderBase_run; cbn [server.ticks server.trace snd];
    eexists; (split; [rewrite <- ?app_assoc; reflexivity|]);
    repeat split.
Qed.

(** Every request takes one of the six shapes. *)
Lemma served_Outcome : extra.Outcome env s r (server.served env s r).
Proof.
  unfold server.served, server.ServeHTTP.
  destruct (server.GetUser env r) as [u|] eqn:Hu; [|now apply extra.NoUser].
  destruct (config.CanViewAlerts u) eqn:Hcan; cbn [negb];
    [|now apply (extra.Forbidden env s r u)].
  cbv zeta.
  destruct (server.getTimes _ _ _ _ _ _) as [[startTime endTime] wrote]
    eqn:Htimes.
  destruct wrote; [apply extra.BadTimes|].
  destruct (server.getNext _ _ _) as [next [nerr|]] eqn:Hnext.
  - match goal with |- context [server.renderError _ _ _ ?c ?q (Some ?e) ?w] =>
      destruct (renderError_shape c q e w) as (data & -> & Hp & _ & Hf & _) end.
    now apply extra.BadRequest.
  - assert (Hadm : extra.admitted env s r u startTime endTime next)
      by (repeat split; assumption).
    unfold server.bind, server.Now, server.emit.
    cbn [server.ticks server.trace server.start app].
    destruct (String.eqb_spec next "") as [Hempty|Hnonempty]; cbn [negb].
    + destruct (server.setPageFilters _ _ _) as [vals [ferr|]] eqn:Hfilt.
      * match goal with
        |- context [server.renderError _ _ _ ?c ?q (Some ?e) ?w] =>
          destruct (renderError_shape c q e w) as (data & -> & Hp & _ & Hf & _)
        end.
        now apply extra.BadRequest.
      * cbv beta. cbn [server.ticks server.trace app].
        set (result := server.Client_GetAlertPageInRange env _ u startTime
                         endTime vals).
        set (call := server.GetAlertPageInRange _ u startTime endTime vals
                       result).
        assert (Hfetch : extra.fetched env s r u startTime endTime next call
                           result (server.URL_Query r)).
        { right. split; [exact Hempty|]. exists vals. now repeat split. }
        clearbody result. destruct result as [page|err].
        -- destruct (serveResult_served u startTime endTime
                       (server.clock env 0) next (server.URL_Query r) page call)
             as (data & -> & Hp & Hq & He & Hn & Hpv & Hfr).
           eapply extra.PageServed; eauto.
        -- destruct err as [|code title|text].
           ++ change (server.serveResult env s r u startTime endTime
                        (server.clock env 0) next (server.URL_Query r)
                        (inr NoMoreResults))
                with (server.serveResult env s r u startTime endTime
                        (server.clock env 0) next (server.URL_Query r)
                        (inl views.newAlertPage)).
              destruct (serveResult_served u startTime endTime
                          (server.clock env 0) next (server.URL_Query r)
                          views.newAlertPage call)
                as (data & -> & Hp & Hq & He & Hn & Hpv & Hfr).
              eapply extra.PageServed; eauto.
           ++ destruct (serveResult_failure u startTime endTime
                          (server.clock env 0) next (server.URL_Query r)
                          (restError code title)
                          {| server.ticks := 1; server.trace := [call] |})
                as (l & -> & Hfail); [discriminate|].
              cbn [snd server.trace app].
              eapply extra.UpstreamError; eauto. discriminate.
           ++ destruct (serveResult_failure u startTime endTime
                          (server.clock env 0) next (server.URL_Query r)
                          (errorString text)
                          {| server.ticks := 1; server.trace := [call] |})
                as (l & -> & Hfail); [discriminate|].
              cbn [snd server.trace app].
              eapply extra.UpstreamError; eauto. discriminate.
    + destruct (strings.HasPrefix next twilio.MonitorBaseURL) eqn:Hpre;
        cbn [negb].
      * cbv beta. cbn [server.ticks server.trace app].
        set (query := server.setNextPageValsOnQuery env next
                        (server.URL_Query r)).
        set (result := server.Client_GetNextAlertPageInRange env _ u startTime
                         endTime next).
        set (call := server.GetNextAlertPageInRange _ u startTime endTime next
                       result).
        assert (Hfetch : extra.fetched env s r u startTime endTime next call
                           result query).
        { left. now repeat split. }
        clearbody result. destruct result as [page|err].
        -- destruct (serveResult_served u startTime endTime
                       (server.clock env 0) next query page call)
             as (data & -> & Hp & Hq & He & Hn & Hpv & Hfr).
           eapply extra.PageServed; eauto.
        -- destruct err as [|code title|text].
           ++ change (server.serveResult env s r u startTime endTime
                        (server.clock env 0) next query (inr NoMoreResults))
                with (server.serveResult env s r u startTime endTime
                        (server.clock env 0) next query
                        (inl views.newAlertPage)).
              destruct (serveResult_served u startTime endTime
                          (server.clock env 0) next query
                          views.newAlertPage call)
                as (data & -> & Hp & Hq & He & Hn & Hpv & Hfr).
              eapply extra.PageServed; eauto.
           ++ destruct (serveResult_failure u startTime endTime
                          (server.clock env 0) next query
                          (restError code title)
                          {| server.ticks := 1; server.trace := [call] |})
                as (l & -> & Hfail); [discriminate|].
              cbn [snd server.trace app].
              eapply extra.UpstreamError; eauto. discriminate.
           ++ destruct (serveResult_failure u startTime endTime
                          (server.clock env 0) next query
                          (errorString text)
                          {| server.ticks := 1; server.trace := [call] |})
                as (l & -> & Hfail); [discriminate|].
              cbn [snd server.trace app].
              eapply extra.UpstreamError; eauto. discriminate.
      * match goal with
        |- context [server.renderError _ _ _ ?c ?q (Some ?e) ?w] =>
          destruct (renderError_shape c q e w) as (data & -> & Hp & _ & Hf & _)
        end.
        now apply extra.BadRequest.
Qed.

Lemma fetched_call (u : config.User) (startTime endTime : time.Time)
  (next : string) (call : server.Event) (result : views.AlertPage + error)
  (query : url.Values) :
  extra.fetched env s r u startTime endTime next call result query ->
  extra.foreground call
  = Some (server.requestContext (3 * time.Second), result)
  /\ extra.callArgs call = Some (u, startTime, endTime)
  /\ (forall l, server.statusCode (call :: l) = server.statusCode l)
  /\ (forall l, server.rendered (call :: l) = server.rendered l)
  /\ (forall l, server.clientCalls (call :: l) = call :: server.clientCalls l).
Proof.
  intros [(_ & _ & _ & -> & _)|(_ & vals & _ & _ & -> & _)]; repeat split.
Qed.

Lemma page_events (u : config.User) (startTime endTime : time.Time)
  (page : views.AlertPage) (data : server.baseData) :
  let l := extra.prefetch u startTime endTime page
           ++ spec.contentType :: server.WriteHeader 200
              :: server.render_base data :: extra.renderTail env data in
  server.statusCode l = Some 200
  /\ server.rendered l = Some data
  /\ server.clientCalls l = extra.prefetch u startTime endTime page.
Proof.
  unfold extra.prefetch, extra.renderTail.
  destruct (types.NullString.Valid (views.NextPageURI page));
    destruct (server.render env data); repeat split.
Qed.

Lemma bad_request_events (data : server.baseData) :
  let l := spec.contentType :: server.WriteHeader 400
           :: server.render_base data :: extra.renderTail env data in
  server.statusCode l = Some 400
  /\ server.rendered l = Some data
  /\ server.clientCalls l = [].
Proof.
  unfold extra.renderTail. destruct (server.render env data); repeat split.
Qed.

Lemma statusOf_cases (err : error) :
  extra.statusOf err = 400 \/ extra.statusOf err = 404
  \/ extra.statusOf err = 500.
Proof.
  unfold extra.statusOf. destruct err as [|code title|text]; auto.
  destruct (code =? 400); auto. destruct (code =? 404); auto.
Qed.

(** X14. Unless [getTimes] has written the response itself, the
    status of the response is 200, 400, 403, 404 or 500. *)
Theorem status_is_one_of_five :
  server.served env s r = [server.getTimes_wroteError]
  \/ exists code,
       server.statusCode (server.served env s r) = Some code
       /\ In code [200; 400; 403; 404; 500].
Proof.
  destruct served_Outcome
    as [Hu | u Hu Hcan | | data Hp Hf
        | u startTime endTime next call err query l Hadm Hfetch Hne Hfail
        | u startTime endTime next call result query page data Hadm Hfetch
            Hres Hp Hq He Hn Hpv Hfr].
  - right. exists 500. split; [reflexivity|]. simpl. tauto.
  - right. exists 403. split; [reflexivity|]. simpl. tauto.
  - now left.
  - right. exists 400. split; [apply bad_request_events|]. simpl. tauto.
  - right. destruct (fetched_call _ _ _ _ _ _ _ Hfetch) as (_ & _ & Hs & _).
    destruct Hfail as (_ & Hst & _). rewrite Hs, Hst.
    exists (extra.statusOf err). split; [reflexivity|].
    destruct (statusOf_cases err) as [->|[->| ->]]; simpl; tauto.
  - right. destruct (fetched_call _ _ _ _ _ _ _ Hfetch) as (_ & _ & Hs & _).
    rewrite Hs. exists 200. split; [apply page_events|]. simpl. tauto.
Qed.

(** X15. No call of the client comes before the checks: every call,
    by the handler or in the goroutine, is made for the user of the
    request, who may view alerts, with the time bounds that [getTimes]
    parsed, after [getNext] returned without an error. *)
Theorem calls_come_after_checks (e : server.Event) :
  In e (server.clientCalls (server.served env s r)) ->
  exists u startTime endTime next,
    extra.admitted env s r u startTime endTime next
    /\ extra.callArgs e = Some (u, startTime, endTime).
Proof.
  destruct served_Outcome
    as [Hu | u Hu Hcan | | data Hp Hf
        | u startTime endTime next call err query l Hadm Hfetch Hne Hfail
        | u startTime endTime next call result query page data Hadm Hfetch
            Hres Hp Hq He Hn Hpv Hfr].
  - intros [].
  - intros [].
  - intros [].
  - rewrite (proj2 (proj2 (bad_request_events data))). intros [].
  - destruct (fetched_call _ _ _ _ _ _ _ Hfetch) as (_ & Hargs & _ & _ & Hc).
    rewrite Hc, (proj1 Hfail). intros [<-|[]].
    now exists u, startTime, endTime, next.
  - destruct (fetched_call _ _ _ _ _ _ _ Hfetch) as (_ & Hargs & _ & _ & Hc).
    rewrite Hc, (proj2 (proj2 (page_events u startTime endTime page data))).
    intros [<-|Hin]; [now exists u, startTime, endTime, next|].
    exists u, startTime, endTime, next. split; [exact Hadm|].
    unfold extra.prefetch in Hin.
    destruct (types.NullString.Valid (views.NextPageURI page)); [|destruct Hin].
    destruct Hin as [<-|[]]. reflexivity.
Qed.

(** X16. A request calls the client at most twice: at most once from
    the handler, under a deadline of three seconds, and once more in the
    goroutine only when the response has status 200. *)
Theorem at_most_one_fetch_and_one_prefetch :
  server.clientCalls (server.served env s r) = []
  \/ exists call result,
       extra.foreground call
       = Some (server.requestContext (3 * time.Second), result)
       /\ (server.clientCalls (server.served env s r) = [call]
           \/ exists u startTime endTime next,
                server.clientCalls (server.served env s r)
                = [call;
                   server.go_GetNextAlertPageInRange u startTime endTime next]
                /\ server.statusCode (server.served env s r) = Some 200).
Proof.
  destruct served_Outcome
    as [Hu | u Hu Hcan | | data Hp Hf
        | u startTime endTime next call err query l Hadm Hfetch Hne Hfail
        | u startTime endTime next call result query page data Hadm Hfetch
            Hres Hp Hq He Hn Hpv Hfr].
  - now left.
  - now left.
  - now left.
  - left. apply bad_request_events.
  - right. destruct (fetched_call _ _ _ _ _ _ _ Hfetch) as (Hfg & _ & _ & _ & Hc).
    exists call, (inr err). split; [exact Hfg|]. left.
    now rewrite Hc, (proj1 Hfail).
  - right.
    destruct (fetched_call _ _ _ _ _ _ _ Hfetch) as (Hfg & _ & Hs & _ & Hc).
    destruct (page_events u startTime endTime page data) as (Hst & _ & Hcalls).
    exists call, result. split; [exact Hfg|].
    rewrite Hc, Hs, Hcalls, Hst. unfold extra.prefetch.
    destruct (types.NullString.Valid (views.NextPageURI page)).
    + right. eexists. eexists. eexists. eexists. split; reflexivity.
    + now left.
Qed.

(** X17. Every response with status 200 renders a page without an
    error message, fetched by exactly one call from the handler; the
    page after it is fetched ahead exactly when the page served has a
    valid next-page URI, and for that URI; and the continuation tokens
    of the response are those that [getEncryptedPage] makes of the
    page's own next and previous URIs. *)
Theorem ok_response_shape :
  server.statusCode (server.served env s r) = Some 200 ->
  exists data call u startTime endTime,
    server.rendered (server.served env s r) = Some data
    /\ server.Err (server.Data data) = ""%string
    /\ server.clientCalls (server.served env s r)
       = call :: extra.prefetch u startTime endTime
                   (server.Page (server.Data data))
    /\ extra.callArgs call = Some (u, startTime, endTime)
    /\ server.EncryptedNextPage (server.Data data)
       = server.getEncryptedPage env
           (views.NextPageURI (server.Page (server.Data data)))
           (server.secretKey s)
    /\ server.EncryptedPreviousPage (server.Data data)
       = server.getEncryptedPage env
           (views.PreviousPageURI (server.Page (server.Data data)))
           (server.secretKey s).
Proof.
  destruct served_Outcome
    as [Hu | u Hu Hcan | | data Hp Hf
        | u startTime endTime next call err query l Hadm Hfetch Hne Hfail
        | u startTime endTime next call result query page data Hadm Hfetch
            Hres Hp Hq He Hn Hpv Hfr].
  - discriminate.
  - discriminate.
  - discriminate.
  - rewrite (proj1 (bad_request_events data)). discriminate.
  - destruct (fetched_call _ _ _ _ _ _ _ Hfetch) as (_ & _ & Hs & _).
    rewrite Hs, (proj1 (proj2 Hfail)). intros [= Hst]. exfalso.
    destruct (statusOf_cases err) as [Hc|[Hc|Hc]]; rewrite Hc in Hst;
      discriminate.
  - intros _.
    destruct (fetched_call _ _ _ _ _ _ _ Hfetch) as (_ & Hargs & _ & Hr & Hc).
    destruct (page_events u startTime endTime page data) as (_ & Hrd & Hcalls).
    exists data, call, u, startTime, endTime.
    rewrite Hr, Hc, Hrd, Hcalls, Hp. repeat split; assumption.
Qed.

(** X18. When the call made by the handler fails with an error other
    than [twilio.NoMoreResults], nothing is fetched ahead and the error
    decides the response: a [*rest.Error] with status 400 gives a 400
    page that shows its title without the first ["twilio: "], one with
    status 404 gives 404, and every other error gives 500. *)
Theorem upstream_error_decides_status (call : server.Event)
  (ctx : server.Context) (err : error) :
  In call (server.served env s r) ->
  extra.foreground call = Some (ctx, inr err) ->
  err <> NoMoreResults ->
  server.clientCalls (server.served env s r) = [call]
  /\ (forall title,
        err = restError 400 title ->
        server.statusCode (server.served env s r) = Some 400
        /\ exists data,
             server.rendered (server.served env s r) = Some data
             /\ server.Page (server.Data data) = views.newAlertPage
             /\ server.Err (server.Data data)
                = strings.Replace1 title "twilio: " "")
  /\ (forall title,
        err = restError 404 title ->
        server.statusCode (server.served env s r) = Some 404
        /\ server.rendered (server.served env s r) = None)
  /\ ((forall title, err <> restError 400 title) ->
      (forall title, err <> restError 404 title) ->
      server.statusCode (server.served env s r) = Some 500
      /\ server.rendered (server.served env s r) = None).
Proof.
  destruct served_Outcome
    as [Hu | u Hu Hcan | | data Hp Hf
        | u startTime endTime next call' err' query l Hadm Hfetch Hne Hfail
        | u startTime endTime next call' result query page data Hadm Hfetch
            Hres Hp Hq He Hn Hpv Hfr].
  - intros [<-|[]]; discriminate.
  - intros [<-|[]]; discriminate.
  - intros [<-|[]]; discriminate.
  - unfold extra.renderTail. destruct (server.render env data);
      intros Hin; repeat (destruct Hin as [<-|Hin]; [discriminate|]);
      destruct Hin.
  - destruct (fetched_call _ _ _ _ _ _ _ Hfetch) as (Hfg & _ & Hs & Hr & Hc).
    destruct Hfail as (Hcalls & Hst & Hrd).
    intros Hin Hfore Herr.
    assert (Hsame : call = call' /\ err = err').
    { destruct Hin as [<-|Hin].
      - split; [reflexivity|]. rewrite Hfg in Hfore. congruence.
      - exfalso. assert (Hcl : In call (server.clientCalls l)).
        { apply filter_In. split; [exact Hin|].
          destruct call; try discriminate; reflexivity. }
        rewrite Hcalls in Hcl. destruct Hcl. }
    destruct Hsame as [<- <-].
    rewrite Hc, Hs, Hr, Hcalls, Hst. split; [reflexivity|].
    unfold extra.statusOf. split; [|split].
    + intros title ->. cbn in Hrd |- *. split; [reflexivity|exact Hrd].
    + intros title ->. cbn in Hrd |- *. now split.
    + intros H400 H404. destruct err as [|code title|text].
      * now contradiction Herr.
      * destruct (Z.eqb_spec code 400) as [->|_];
          [now contradiction (H400 title)|].
        destruct (Z.eqb_spec code 404) as [->|_];
          [now contradiction (H404 title)|].
        now split.
      * now split.
  - intros Hin Hfore Herr. exfalso.
    destruct (fetched_call _ _ _ _ _ _ _ Hfetch) as (Hfg & _).
    destruct Hin as [<-|Hin].
    + rewrite Hfg in Hfore. injection Hfore as _ ->.
      destruct Hres as [Hres|[Hres _]]; [discriminate|congruence].
    + unfold extra.prefetch, extra.renderTail in Hin.
      destruct (types.NullString.Valid (views.NextPageURI page));
        destruct (server.render env data); cbn in Hin;
        repeat (destruct Hin as [<-|Hin]; [discriminate|]);
        destruct Hin.
Qed.

(** X19. On a first page, a filter that [setPageFilters] rejects is
    answered with status 400 and an empty page that shows the filter's
    error, and the client is not called. *)
Theorem bad_filter_is_bad_request (u : config.User)
  (startTime endTime : time.Time) (vals : url.Values) (ferr : error) :
  extra.admitted env s r u startTime endTime "" ->
  server.setPageFilters env (server.URL_Query r)
    (url.Values_Set [] "PageSize" (strings.FormatUint10 (server.PageSize s)))
  = (vals, Some ferr) ->
  server.statusCode (server.served env s r) = Some 400
  /\ server.clientCalls (server.served env s r) = []
  /\ exists data,
       server.rendered (server.served env s r) = Some data
       /\ server.Page (server.Data data) = views.newAlertPage
       /\ server.Err (server.Data data)
          = strings.Replace1 (Error ferr) "twilio: " "".
Proof.
  intros (Hu & Hcan & Htimes & Hnext) Hfilt.
  assert (Htr : exists data,
    server.served env s r
    = spec.contentType :: server.WriteHeader 400
      :: server.render_base data :: extra.renderTail env data
    /\ server.Page (server.Data data) = views.newAlertPage
    /\ server.Err (server.Data data)
       = strings.Replace1 (Error ferr) "twilio: " "").
  { unfold server.served, server.ServeHTTP.
    rewrite Hu, Hcan. cbn [negb]. cbv zeta. rewrite Htimes, Hnext.
    unfold server.bind, server.Now.
    cbn [server.ticks server.trace server.start String.eqb negb].
    rewrite Hfilt.
    match goal with |- context [server.renderError _ _ _ ?c ?q (Some ?e) ?w] =>
      destruct (renderError_shape c q e w) as (data & -> & Hp & _ & _ & He) end.
    exists data. now repeat split. }
  destruct Htr as (data & -> & Hp & He).
  destruct (bad_request_events data) as (Hst & Hrd & Hcalls).
  split; [exact Hst|]. split; [exact Hcalls|].
  exists data. now repeat split.
Qed.

(** X20. A page served with status 200 carries frequency buckets
    exactly on a first page: after a continuation token it has none and
    is rendered with the query that [setNextPageValsOnQuery] updated;
    without one it has the four buckets named 5 minutes, hour, day and
    3 days, each computed by [getAlertFrequency] over the alerts of the
    page served, and is rendered with the query of the request. *)
Theorem buckets_on_first_page_only (u : config.User)
  (startTime endTime : time.Time) (next : string) :
  extra.admitted env s r u startTime endTime next ->
  server.statusCode (server.served env s r) = Some 200 ->
  exists data,
    server.rendered (server.served env s r) = Some data
    /\ (next <> ""%string ->
        server.Freq (server.Data data) = []
        /\ server.Query (server.Data data)
           = server.setNextPageValsOnQuery env next (server.URL_Query r))
    /\ (next = ""%string ->
        map server.Name (server.Freq (server.Data data))
        = ["5 minutes"; "hour"; "day"; "3 days"]%string
        /\ Forall
             (fun f =>
                exists since now,
                  f = server.getAlertFrequency
                        (views.Alerts (server.Page (server.Data data)))
                        (server.Name f) since now)
             (server.Freq (server.Data data))
        /\ server.Query (server.Data data) = server.URL_Query r).
Proof.
  intros (Hu0 & Hcan0 & Htimes0 & Hnext0).
  destruct served_Outcome
    as [Hu | u' Hu Hcan | | data Hp Hf
        | u' startTime' endTime' next' call err query l Hadm Hfetch Hne Hfail
        | u' startTime' endTime' next' call result query page data Hadm Hfetch
            Hres Hp Hq He Hn Hpv Hfr].
  - discriminate.
  - discriminate.
  - discriminate.
  - rewrite (proj1 (bad_request_events data)). discriminate.
  - destruct (fetched_call _ _ _ _ _ _ _ Hfetch) as (_ & _ & Hs & _).
    rewrite Hs, (proj1 (proj2 Hfail)). intros [= Hst]. exfalso.
    destruct (statusOf_cases err) as [Hc|[Hc|Hc]]; rewrite Hc in Hst;
      discriminate.
  - intros _.
    destruct Hadm as (_ & _ & _ & Hnext1).
    assert (next' = next) as -> by congruence.
    destruct (fetched_call _ _ _ _ _ _ _ Hfetch) as (_ & _ & _ & Hr & _).
    destruct (page_events u' startTime' endTime' page data) as (_ & Hrd & _).
    exists data. rewrite Hr, Hrd. split; [reflexivity|]. split.
    + intros Hne. apply String.eqb_neq in Hne. rewrite Hne in Hfr.
      split; [exact Hfr|]. rewrite Hq.
      destruct Hfetch as [(_ & _ & _ & _ & ->)|(Hempty & _)];
        [reflexivity|].
      apply String.eqb_neq in Hne. now contradiction Hne.
    + intros ->. cbn [String.eqb] in Hfr. rewrite Hfr, Hp, Hq.
      split; [reflexivity|]. split.
      * unfold extra.buckets.
        repeat constructor; eexists; eexists; reflexivity.
      * destruct Hfetch as [(Hne & _)|(_ & vals & _ & _ & _ & ->)];
          [now contradiction Hne|reflexivity].
Qed.

End ServeMoreProperties.

Lemma calls_come_after_checks_witness :
  exists u startTime endTime next,
    extra.admitted extra.nextEnv spec.demoServer spec.firstPageRequest
      u startTime endTime next
    /\ extra.callArgs
         (server.go_GetNextAlertPageInRange spec.viewer 0 spec.noon
            "https://monitor.twilio.com/v1/Alerts?Page=1")
       = Some (u, startTime, endTime).
Proof.
  apply (calls_come_after_checks extra.nextEnv spec.demoServer
           spec.firstPageRequest).
  vm_compute. right. left. reflexivity.
Defined.

Lemma ok_response_shape_witness :
  exists data call u startTime endTime,
    server.rendered
      (server.served extra.nextEnv spec.demoServer spec.firstPageRequest)
    = Some data
    /\ server.Err (server.Data data) = ""%string
    /\ server.clientCalls
         (server.served extra.nextEnv spec.demoServer spec.firstPageRequest)
       = call :: extra.prefetch u startTime endTime
                   (server.Page (server.Data data))
    /\ extra.callArgs call = Some (u, startTime, endTime)
    /\ server.EncryptedNextPage (server.Data data)
       = server.getEncryptedPage extra.nextEnv
           (views.NextPageURI (server.Page (server.Data data)))
           (server.secretKey spec.demoServer)
    /\ server.EncryptedPreviousPage (server.Data data)
       = server.getEncryptedPage extra.nextEnv
           (views.PreviousPageURI (server.Page (server.Data data)))
           (server.secretKey spec.demoServer).
Proof.
  apply (ok_response_shape extra.nextEnv spec.demoServer
           spec.firstPageRequest).
  vm_compute. reflexivity.
Defined.

Lemma upstream_error_decides_status_witness :
  server.statusCode
    (server.served extra.missingEnv spec.demoServer spec.firstPageRequest)
  = Some 404
  /\ server.rendered
       (server.served extra.missingEnv spec.demoServer spec.firstPageRequest)
     = None.
Proof.
  refine (proj1 (proj2 (proj2
           (upstream_error_decides_status extra.missingEnv spec.demoServer
              spec.firstPageRequest
              (server.GetAlertPageInRange
                 (server.requestContext (3 * time.Second)) spec.viewer 0
                 spec.noon [("PageSize"%string, ["50"%string])]
                 (inr (restError 404 "The requested resource was not found")))
              (server.requestContext (3 * time.Second))
              (restError 404 "The requested resource was not found")
              _ _ _)))
           "The requested resource was not found"%string eq_refl).
  - vm_compute. left. reflexivity.
  - reflexivity.
  - discriminate.
Defined.

Lemma bad_filter_is_bad_request_witness :
  server.statusCode
    (server.served extra.badFilterEnv spec.demoServer spec.firstPageRequest)
  = Some 400
  /\ server.clientCalls
       (server.served extra.badFilterEnv spec.demoServer spec.firstPageRequest)
     = [].
Proof.
  destruct (bad_filter_is_bad_request extra.badFilterEnv spec.demoServer
              spec.firstPageRequest spec.viewer 0 spec.noon
              [("PageSize"%string, ["50"%string])]
              (errorString "Unknown log level"))
    as (Hst & Hcalls & _).
  - repeat split.
  - reflexivity.
  - now split.
Defined.

Lemma buckets_on_first_page_only_witness :
  exists data,
    server.rendered
      (server.served extra.nextEnv spec.demoServer spec.firstPageRequest)
    = Some data
    /\ map server.Name (server.Freq (server.Data data))
       = ["5 minutes"; "hour"; "day"; "3 days"]%string.
Proof.
  destruct (buckets_on_first_page_only extra.nextEnv spec.demoServer
              spec.firstPageRequest spec.viewer 0 spec.noon "")
    as (data & Hrd & _ & Hfirst).
  - repeat split.
  - vm_compute. reflexivity.
  - exists data. split; [exact Hrd|]. now apply Hfirst.
Defined.

(** * Properties of the paging links and the search boxes *)

Section QueryProperties.

Lemma Get_index (v : url.Values) (key : string) :
  url.Get v key
  = match url.index v key with
    | Some (x :: _) => x
    | _ => ""%string
    end.
Proof.
  induction v as [|[k vs] v IH]; simpl; [reflexivity|].
  destruct (String.eqb k key); [|exact IH]. now destruct vs.
Qed.

Lemma index_Set_same (v : url.Values) (key value : string) :
  url.index (url.Values_Set v key value) key = Some [value].
Proof. unfold url.Values_Set. simpl. now rewrite String.eqb_refl. Qed.

Lemma index_Set_other (v : url.Values) (key other value : string) :
  key <> other ->
  url.index (url.Values_Set v key value) other = url.index v other.
Proof.
  intros Hne. unfold url.Values_Set. simpl.
  destruct (String.eqb_spec key other) as [Heq|_]; [contradiction|].
  induction v as [|[k vs] v IH]; simpl; [reflexivity|].
  destruct (String.eqb_spec k key) as [->|Hk]; simpl.
  - destruct (String.eqb_spec key other); [contradiction|exact IH].
  - destruct (String.eqb k other); [reflexivity|exact IH].
Qed.

(** The map that both links build from a token and a query. *)
Lemma link_data (token : string) (query : url.Values) (data : url.Values) :
  server.andThen
    (match url.index query "alert-start" with
     | Some start =>
         server.andThen (server.first start)
           (fun start0 =>
              Returned
                (url.Values_Set
                   (if negb (String.eqb token "")
                    then url.Values_Set [] "next" token else [])
                   "alert-start" start0))
     | None =>
         Returned (if negb (String.eqb token "")
                   then url.Values_Set [] "next" token else [])
     end)
    (fun data =>
       match url.index query "alert-end" with
       | Some end_ =>
           server.andThen (server.first end_)
             (fun end0 => Returned (url.Values_Set data "alert-end" end0))
       | None => Returned data
       end)
  = Returned data ->
  url.Get data "next" = token
  /\ (token = ""%string -> url.index data "next" = None)
  /\ url.Get data "alert-start" = url.Get query "alert-start"
  /\ url.Get data "alert-end" = url.Get query "alert-end"
  /\ forall key,
       key <> "next"%string -> key <> "alert-start"%string ->
       key <> "alert-end"%string ->
       url.index data key = None.
Proof.
  rewrite !Get_index.
  set (d0 := if negb (String.eqb token "")
             then url.Values_Set [] "next" token else []).
  assert (H0 : url.index d0 "next"
               = (if String.eqb token "" then None else Some [token])
               /\ forall key, key <> "next"%string -> url.index d0 key = None).
  { unfold d0. destruct (String.eqb token ""); cbn [negb].
    - split; reflexivity.
    - split; [apply index_Set_same|].
      intros key Hk. now rewrite index_Set_other by congruence. }
  destruct H0 as (Hnext0 & Hother0).
  assert (Hfinish : forall d1 : url.Values,
    url.index d1 "next" = url.index d0 "next" ->
    url.index d1 "alert-end" = None ->
    (forall key, key <> "next"%string -> key <> "alert-start"%string ->
                 url.index d1 key = None) ->
    match url.index query "alert-end" with
    | Some end_ =>
        server.andThen (server.first end_)
          (fun end0 => Returned (url.Values_Set d1 "alert-end" end0))
    | None => Returned d1
    end = Returned data ->
    url.index data "next" = url.index d0 "next"
    /\ url.index data "alert-start" = url.index d1 "alert-start"
    /\ match url.index data "alert-end" with
       | Some (x :: _) => x | _ => ""%string end
       = match url.index query "alert-end" with
         | Some (x :: _) => x | _ => ""%string end
    /\ forall key, key <> "next"%string -> key <> "alert-start"%string ->
                   key <> "alert-end"%string -> url.index data key = None).
  { intros d1 Hn He Ho.
    destruct (url.index query "alert-end") as [[|end0 ends]|];
      cbn [server.andThen server.first]; [discriminate| |].
    - intros [= <-].
      rewrite index_Set_same, !index_Set_other by discriminate.
      repeat split; try assumption.
      intros key H1 H2 H3. rewrite index_Set_other by congruence. now apply Ho.
    - intros [= <-]. rewrite He. repeat split; try assumption.
      intros key H1 H2 _. now apply Ho. }
  destruct (url.index query "alert-start") as [[|start0 starts]|];
    cbn [server.andThen server.first]; [discriminate| |]; intros Hdata.
  - apply Hfinish in Hdata.
    + destruct Hdata as (Hn & Hs & He & Ho).
      rewrite Hn, Hs, He, Hnext0, index_Set_same.
      destruct (String.eqb_spec token ""); repeat split; try assumption;
        try congruence.
    + now rewrite index_Set_other by discriminate.
    + rewrite index_Set_other by discriminate. apply Hother0. discriminate.
    + intros key H1 H2. rewrite index_Set_other by congruence.
      now apply Hother0.
  - apply Hfinish in Hdata.
    + destruct Hdata as (Hn & Hs & He & Ho).
      rewrite Hn, Hs, He, Hnext0, Hother0 by discriminate.
      destruct (String.eqb_spec token ""); repeat split; try assumption;
        try congruence.
    + reflexivity.
    + apply Hother0. discriminate.
    + intros key H1 _. now apply Hother0.
Qed.

Context `{url.Encoding}.

(** X21. The next-page link encodes the forward token under [next]
    (no such key when the token is empty) and the first values of
    [alert-start] and [alert-end] of the page's query, and nothing else:
    every other parameter of the query is left out. *)
Theorem NextQuery_carries_token_and_bounds (c : server.alertListData)
  (q : string) :
  server.NextQuery c = Returned q ->
  exists data,
    q = url.Encode data
    /\ url.Get data "next" = server.EncryptedNextPage c
    /\ (server.EncryptedNextPage c = ""%string ->
        url.index data "next" = None)
    /\ url.Get data "alert-start" = url.Get (server.Query c) "alert-start"
    /\ url.Get data "alert-end" = url.Get (server.Query c) "alert-end"
    /\ forall key,
         key <> "next"%string -> key <> "alert-start"%string ->
         key <> "alert-end"%string ->
         url.index data key = None.
Proof.
  unfold server.NextQuery.
  destruct (server.NextQuery_data c) as [data|] eqn:Hd; [|discriminate].
  cbn [server.andThen]. intros [= <-]. exists data. split; [reflexivity|].
  unfold server.NextQuery_data in Hd. cbv zeta in Hd.
  now apply link_data in Hd.
Qed.

(** X22. [NextQuery] panics exactly when the page's query holds
    [alert-start] or [alert-end] with an empty list of values. *)
Theorem NextQuery_panics_on_empty_bound (c : server.alertListData) :
  server.NextQuery c = Panicked
  <-> url.index (server.Query c) "alert-start" = Some []
      \/ url.index (server.Query c) "alert-end" = Some [].
Proof.
  unfold server.NextQuery, server.NextQuery_data. cbv zeta.
  destruct (url.index (server.Query c) "alert-start") as [[|s0 ss]|];
    destruct (url.index (server.Query c) "alert-end") as [[|e0 es]|];
    cbn [server.andThen server.first];
    split; try discriminate; try tauto;
    intros [Hx|Hx]; discriminate Hx.
Qed.

(** X23. The previous-page link is the next-page link of a page whose
    forward token is this page's backward token: the backward token
    travels under the same parameter [next], with the same bounds. *)
Theorem PreviousQuery_is_NextQuery_backwards (c c' : server.alertListData) :
  server.EncryptedNextPage c' = server.EncryptedPreviousPage c ->
  server.Query c' = server.Query c ->
  server.PreviousQuery c = server.NextQuery c'.
Proof.
  intros Htoken Hquery.
  unfold server.PreviousQuery, server.NextQuery, server.PreviousQuery_data,
    server.NextQuery_data.
  now rewrite Htoken, Hquery.
Qed.

Context `{server.SearchDefaults}.

(** X24. When the query sets both bounds, the search boxes and the
    next-page link agree: [StartSearchVal] and [EndSearchVal] return the
    very values that the link carries under [alert-start] and
    [alert-end], whatever the server's maximum resource age. *)
Theorem search_boxes_match_link (s : server.alertListServer)
  (c : server.alertListData) (loc : server.Location)
  (start end_ : list string) (q : string) :
  url.index (server.Query c) "alert-start" = Some start ->
  url.index (server.Query c) "alert-end" = Some end_ ->
  server.NextQuery c = Returned q ->
  exists data startVal endVal,
    q = url.Encode data
    /\ server.StartSearchVal s (server.Query c) loc = Returned startVal
    /\ server.EndSearchVal s (server.Query c) loc = Returned endVal
    /\ url.Get data "alert-start" = startVal
    /\ url.Get data "alert-end" = endVal.
Proof.
  intros Hs He Hq.
  unfold server.NextQuery in Hq.
  destruct (server.NextQuery_data c) as [data|] eqn:Hd; [|discriminate].
  cbn [server.andThen] in Hq. injection Hq as <-.
  unfold server.NextQuery_data in Hd. cbv zeta in Hd.
  pose proof Hd as Hlive. rewrite Hs, He in Hlive.
  destruct start as [|s0 ss]; [discriminate Hlive|].
  destruct end_ as [|e0 es]; [discriminate Hlive|].
  apply link_data in Hd as (_ & _ & Hgs & Hge & _).
  unfold server.StartSearchVal, server.EndSearchVal. rewrite Hs, He.
  rewrite (Get_index (server.Query c)), Hs in Hgs.
  rewrite (Get_index (server.Query c)), He in Hge.
  exists data, s0, e0. now repeat split.
Qed.

End QueryProperties.

Lemma NextQuery_carries_token_and_bounds_witness :
  exists data,
    "alert-end=2016-10-31&alert-start=2016-10-01&next=sealed-next"%string
    = url.Encode (Encoding := extra.plainEncoding) data
    /\ url.Get data "next" = "sealed-next"%string
    /\ url.index data "log-level" = None.
Proof.
  destruct (NextQuery_carries_token_and_bounds (H := extra.plainEncoding)
              extra.middlePage
              "alert-end=2016-10-31&alert-start=2016-10-01&next=sealed-next"
              eq_refl)
    as (data & Hq & Hnext & _ & _ & _ & Hother).
  exists data. split; [exact Hq|]. split; [exact Hnext|].
  apply Hother; discriminate.
Defined.

Lemma PreviousQuery_is_NextQuery_backwards_witness :
  server.PreviousQuery (H := extra.plainEncoding) extra.middlePage
  = server.NextQuery (H := extra.plainEncoding) extra.middlePageBackwards.
Proof.
  apply (PreviousQuery_is_NextQuery_backwards (H := extra.plainEncoding)
           extra.middlePage extra.middlePageBackwards); reflexivity.
Defined.

Lemma search_boxes_match_link_witness :
  exists data startVal endVal,
    "alert-end=2016-10-31&alert-start=2016-10-01&next=sealed-next"%string
    = url.Encode (Encoding := extra.plainEncoding) data
    /\ server.StartSearchVal (H := extra.searchDefaults) spec.demoServer
         (server.Query extra.middlePage) "UTC"%string
       = Returned startVal
    /\ server.EndSearchVal (H := extra.searchDefaults) spec.demoServer
         (server.Query extra.middlePage) "UTC"%string
       = Returned endVal
    /\ url.Get data "alert-start" = startVal
    /\ url.Get data "alert-end" = endVal.
Proof.
  apply (search_boxes_match_link (H := extra.plainEncoding)
           (H0 := extra.searchDefaults) spec.demoServer extra.middlePage
           "UTC"%string ["2016-10-01"%string] ["2016-10-31"%string]); reflexivity.
Defined.

(** * Properties of the handlers of serve.go *)

Section HandlerProperties.

Context `{url.Lib} `{serve.Assets} `{serve.Handlers}.

Lemma substring_whole (s : string) :
  substring 0 (String.length s) s = s.
Proof. induction s as [|c s IH]; simpl; [reflexivity|now rewrite IH]. Qed.

Lemma TrimPrefix_slash (name : string) :
  strings.TrimPrefix (String "/" name) "/" = name.
Proof.
  unfold strings.TrimPrefix. cbn [String.prefix].
  destruct (ascii_dec "/" "/") as [_|Hne]; [|now contradiction Hne].
  destruct name as [|c name]; cbn [String.prefix String.length].
  - reflexivity.
  - rewrite Nat.sub_succ, Nat.sub_0_r.
    change (substring 1 (S (String.length name)) (String "/" (String c name)))
      with (substring 0 (S (String.length name)) (String c name)).
    apply (substring_whole (String c name)).
Qed.

(** X25. When unencrypted traffic is not allowed, a request whose
    [X-Forwarded-Proto] header is exactly [http] is redirected with
    status 301 to its own URL with the scheme [https] and the host of
    the request, and the wrapped handler does not run; every other
    request reaches the wrapped handler, after the
    [Strict-Transport-Security] header has been set. *)
Theorem UpgradeInsecureHandler_redirects_http (h : serve.Handler)
  (allowUnencryptedTraffic : bool) (r : serve.Request) :
  (allowUnencryptedTraffic = false ->
   url.Get (serve.Header r) "X-Forwarded-Proto" = "http"%string ->
   exists u,
     serve.UpgradeInsecureHandler h allowUnencryptedTraffic r
     = [serve.http_Redirect (url.URL_String u) 301]
     /\ url.Scheme u = "https"%string
     /\ url.Host u = serve.Host r
     /\ url.Path u = url.Path (serve.URL r)
     /\ url.RawQuery u = url.RawQuery (serve.URL r)
     /\ url.Fragment u = url.Fragment (serve.URL r))
  /\ (allowUnencryptedTraffic = true
      \/ url.Get (serve.Header r) "X-Forwarded-Proto" <> "http"%string ->
      serve.UpgradeInsecureHandler h allowUnencryptedTraffic r
      = serve.Header_Set "Strict-Transport-Security"
          "max-age=31536000; includeSubDomains; preload"
        :: h r).
Proof.
  unfold serve.UpgradeInsecureHandler. cbv zeta. split.
  - intros -> Hproto. rewrite Hproto. cbn [Bool.eqb String.eqb Ascii.eqb].
    eexists. split; [reflexivity|]. repeat split.
  - intros [->|Hproto]; [reflexivity|].
    destruct allowUnencryptedTraffic; cbn [Bool.eqb]; [reflexivity|].
    destruct (String.eqb_spec (url.Get (serve.Header r) "X-Forwarded-Proto")
                "http"); [contradiction|reflexivity].
Qed.

(** X26. The handler that [NewServer] builds for encrypted traffic only
    redirects a request forwarded over [http] before authentication and
    routing, whoever the users are; and with no users a request that is
    not redirected goes to the router without Basic Authentication. *)
Theorem NewServer_redirects_before_auth (staticServer : serve.Handler)
  (users : list (string * string)) (r : serve.Request) :
  (url.Get (serve.Header r) "X-Forwarded-Proto" = "http"%string ->
   exists target,
     serve.NewServer staticServer false users r
     = [serve.http_Redirect target 301])
  /\ (url.Get (serve.Header r) "X-Forwarded-Proto" <> "http"%string ->
      forall allowUnencryptedTraffic,
        serve.NewServer staticServer allowUnencryptedTraffic [] r
        = serve.Header_Set "Strict-Transport-Security"
            "max-age=31536000; includeSubDomains; preload"
          :: serve.Regexp
               [ {| serve.pattern := "^/messages$";
                    serve.methods := ["GET"%string];
                    serve.handler := serve.server_ServeHTTP |};
                 {| serve.pattern := "^/static";
                    serve.methods := ["GET"%string];
                    serve.handler := staticServer |} ] r).
Proof.
  unfold serve.NewServer, serve.UpgradeInsecureHandler. cbv zeta. split.
  - intros Hproto. rewrite Hproto. cbn [Bool.eqb String.eqb Ascii.eqb].
    eexists. reflexivity.
  - intros Hproto allow. cbn [List.length Nat.ltb Nat.leb].
    destruct allow; cbn [Bool.eqb]; [reflexivity|].
    destruct (String.eqb_spec (url.Get (serve.Header r) "X-Forwarded-Proto")
                "http"); [contradiction|reflexivity].
Qed.

(** X27. The static handler looks an asset up under the request path
    without its leading slash: when the asset exists it is served under
    the full path with the time the server started as its modification
    time, and when it does not the response is a JSON 404 and no content
    is served. *)
Theorem static_serves_asset_of_path (s : serve.static) (r : serve.Request)
  (name : string) :
  url.Path (serve.URL r) = String "/" name ->
  serve.static_ServeHTTP s r
  = match serve.Asset name with
    | inl bits =>
        [serve.http_ServeContent (String "/" name) (serve.modTime s) bits]
    | inr _ =>
        [serve.Header_Set "Content-Type" "application/json; charset=utf-8";
         serve.rest_NotFound]
    end.
Proof.
  intros Hpath. unfold serve.static_ServeHTTP.
  rewrite Hpath, TrimPrefix_slash. reflexivity.
Qed.

End HandlerProperties.

Lemma UpgradeInsecureHandler_redirects_http_witness :
  exists u,
    serve.UpgradeInsecureHandler (H := spec.pathLib)
      (fun _ => [serve.rest_NotFound]) false
      (extra.forwarded "http" "/messages")
    = [serve.http_Redirect (url.URL_String (Lib := spec.pathLib) u) 301]
    /\ url.Scheme u = "https"%string
    /\ url.Host u = "logrole.example.com"%string.
Proof.
  destruct (UpgradeInsecureHandler_redirects_http (H := spec.pathLib)
              (fun _ => [serve.rest_NotFound]) false
              (extra.forwarded "http" "/messages"))
    as [Hredirect _].
  destruct (Hredirect eq_refl eq_refl) as (u & Htr & Hs & Hh & _).
  exists u. split; [exact Htr|]. now split.
Defined.

Lemma NewServer_redirects_before_auth_witness :
  exists target,
    serve.NewServer (H := spec.pathLib) (H0 := extra.oneAsset)
      (H1 := extra.noHandlers)
      (serve.static_ServeHTTP (H := extra.oneAsset) {| serve.modTime := 0 |})
      false [("admin"%string, "secret"%string)]
      (extra.forwarded "http" "/messages")
    = [serve.http_Redirect target 301].
Proof.
  destruct (NewServer_redirects_before_auth (H := spec.pathLib)
              (H0 := extra.oneAsset) (H1 := extra.noHandlers)
              (serve.static_ServeHTTP (H := extra.oneAsset)
                 {| serve.modTime := 0 |})
              [("admin"%string, "secret"%string)]
              (extra.forwarded "http" "/messages"))
    as [Hredirect _].
  apply Hredirect. reflexivity.
Defined.

Lemma static_serves_asset_of_path_witness :
  serve.static_ServeHTTP (H := extra.oneAsset) {| serve.modTime := 1000 |}
    (extra.forwarded "https" "/static/css/style.css")
  = [serve.http_ServeContent "/static/css/style.css" 1000
       (list_byte_of_string "body {}")].
Proof.
  apply (static_serves_asset_of_path (H0 := extra.oneAsset)
           {| serve.modTime := 1000 |}
           (extra.forwarded "https" "/static/css/style.css")
           "static/css/style.css").
  reflexivity.
Defined.
